(** * Agent.py (3-Day_Context_Engineering): a shallow embedding

    The script is glue code around an agent SDK.  What it owns is: the
    credential check at import time, one retry record, the helper
    [run_session], four demo routines, two state tools and the main block.

    Modelling decisions.
    - The SDK is a parameter: class [Framework] gives, over an abstract
      framework state [F], the three calls whose results the script consumes
      ([create_session], [get_session], [run_async]), the attribute
      [Runner.app_name] and the [.env] loader.  Each of the three calls may
      raise; [run_async] streams a finite list of events and may end by
      raising.
    - SDK constructors ([Gemini], [Agent], [LlmAgent], [App], [Runner], the
      session services, [HttpRetryOptions]) build plain records and are
      entered in the world's [sdk_log] in program order.
    - Script-level effects are threaded through a state-and-exception monad
      [M] over [World]: the process environment, the console (one entry per
      [print] call), the module global [session_service] and the log of SDK
      calls with their answers.
    - Every exception of the model derives from Python's [Exception];
      [exit()] is the separate outcome [Exit], which no handler catches. *)

From Stdlib Require Import ZArith Lia.
From stdpp Require Import base option list strings gmap.

Local Open Scope string_scope.
Local Open Scope Z_scope.

(** ** Strings of the script *)

Definition nl : string := String (Ascii.ascii_of_nat 10) EmptyString.

(** Python truthiness of a [str]. *)
Definition str_truthy (s : string) : bool :=
  match s with EmptyString => false | String _ _ => true end.

(** ** Python exceptions and outcomes *)

Record exn := Exn { exn_class : string; exn_msg : string }.

#[global] Instance exn_eq_dec : EqDecision exn.
Proof. solve_decision. Defined.

Definition ValueError (msg : string) : exn := Exn "ValueError" msg.
Definition NameError (name : string) : exn :=
  Exn "NameError" ("name '" ++ name ++ "' is not defined").
Definition AttributeError (msg : string) : exn := Exn "AttributeError" msg.
Definition TypeError (msg : string) : exn := Exn "TypeError" msg.

(** [str(e)] *)
Definition exn_str (e : exn) : string := exn_msg e.

Inductive Res (A : Type) : Type :=
  | Ret (a : A)
  | Raise (e : exn)
  | Exit.
Arguments Ret {A} a.
Arguments Raise {A} e.
Arguments Exit {A}.

(** ** SDK data, as the script builds and reads it *)

Record HttpRetryOptions := mkHttpRetryOptions {
  attempts : Z;
  exp_base : Z;
  initial_delay : Z;
  http_status_codes : list Z
}.

Record Gemini := mkGemini {
  model : string;
  retry_options : option HttpRetryOptions
}.

(** The two functions handed to the SDK as tools. *)
Inductive Tool := tool_save_userinfo | tool_retrieve_userinfo.

Inductive AgentClass := cls_Agent | cls_LlmAgent.

Record Agent := mkAgent {
  agent_class : AgentClass;
  agent_model : Gemini;
  agent_name : string;
  description : string;
  tools : list Tool
}.

Record EventsCompactionConfig := mkEventsCompactionConfig {
  compaction_interval : Z;
  overlap_size : Z
}.

Record App := mkApp {
  app_name_of : string;
  root_agent : Agent;
  events_compaction_config : option EventsCompactionConfig
}.

(** A session service object.  Every [InMemorySessionService()] is a new
    object with a store of its own ([oid] is its identity).  A
    [DatabaseSessionService] is recorded by the URL of its database: two
    such objects on one URL are two Python objects over one store, and the
    model does not tell them apart. *)
Inductive SessionService :=
  | InMemorySessionService (oid : nat)
  | DatabaseSessionService (db_url : string).

(** [Runner(agent=.., app_name=.., session_service=..)] or
    [Runner(app=.., session_service=..)]: the keyword arguments given. *)
Record Runner := mkRunner {
  runner_agent : option Agent;
  runner_app : option App;
  runner_app_name_arg : option string;
  runner_session_service : SessionService
}.

Record Part := mkPart { text : option string }.

Record Content := mkContent {
  role : option string;
  parts : option (list Part)
}.

Record Event := mkEvent { content : option Content }.

(** Only the attribute [session.id] is read by the script. *)
Record Session := mkSession { session_id : string }.

#[global] Instance HttpRetryOptions_eq_dec : EqDecision HttpRetryOptions.
Proof. solve_decision. Defined.
#[global] Instance Gemini_eq_dec : EqDecision Gemini.
Proof. solve_decision. Defined.
#[global] Instance Tool_eq_dec : EqDecision Tool.
Proof. solve_decision. Defined.
#[global] Instance AgentClass_eq_dec : EqDecision AgentClass.
Proof. solve_decision. Defined.
#[global] Instance Agent_eq_dec : EqDecision Agent.
Proof. solve_decision. Defined.
#[global] Instance EventsCompactionConfig_eq_dec : EqDecision EventsCompactionConfig.
Proof. solve_decision. Defined.
#[global] Instance App_eq_dec : EqDecision App.
Proof. solve_decision. Defined.
#[global] Instance SessionService_eq_dec : EqDecision SessionService.
Proof. solve_decision. Defined.
#[global] Instance Runner_eq_dec : EqDecision Runner.
Proof. solve_decision. Defined.
#[global] Instance Part_eq_dec : EqDecision Part.
Proof. solve_decision. Defined.
#[global] Instance Content_eq_dec : EqDecision Content.
Proof. solve_decision. Defined.
#[global] Instance Event_eq_dec : EqDecision Event.
Proof. solve_decision. Defined.
#[global] Instance Session_eq_dec : EqDecision Session.
Proof. solve_decision. Defined.

(** The [user_queries] argument: [list[str] | str], default [None]. *)
Inductive Queries :=
  | QNone
  | QStr (s : string)
  | QList (l : list string).

(** Python truthiness of the argument. *)
Definition queries_truthy (q : Queries) : bool :=
  match q with
  | QNone => false
  | QStr s => str_truthy s
  | QList [] => false
  | QList (_ :: _) => true
  end.

Definition isinstance_str (q : Queries) : bool :=
  match q with QStr _ => true | _ => false end.

(** ** The log of SDK calls *)

(** The configuration objects the script builds.  The [types.Content] and
    [types.Part] values of line 71 are not among them: they are built once
    per query and appear in the log as the message of the [RunAsync] entry. *)
Inductive SdkObject :=
  | OHttpRetryOptions (o : HttpRetryOptions)
  | OGemini (g : Gemini)
  | OAgent (a : Agent)
  | OEventsCompactionConfig (c : EventsCompactionConfig)
  | OApp (a : App)
  | OSessionService (s : SessionService)
  | ORunner (r : Runner).

Inductive Call :=
  | Construct (o : SdkObject)
  | CreateSession (svc : SessionService) (app user sid : string)
      (answer : Session + exn)
  | GetSession (svc : SessionService) (app user sid : string)
      (answer : option Session + exn)
  | RunAsync (r : Runner) (user sid : string) (new_message : Content)
      (events : list Event) (failure : option exn).

(** ** The state tools (lines 170-179) *)

(** Values a state dictionary or a tool result may hold. *)
Inductive value :=
  | VNone
  | VBool (b : bool)
  | VInt (z : Z)
  | VStr (s : string).

#[global] Instance value_eq_dec : EqDecision value.
Proof. solve_decision. Defined.

Record ToolContext := mkToolContext { state : gmap string value }.

(** [tool_context.state[key] = v], in place *)
Definition state_set (key : string) (v : value) (tool_context : ToolContext)
  : ToolContext :=
  mkToolContext (<[key := v]> (state tool_context)).

(** [tool_context.state.get(key, dflt)] *)
Definition state_get (key : string) (dflt : value) (tool_context : ToolContext)
  : value :=
  default dflt (state tool_context !! key).

(** Returns the context after the two writes and the result dictionary. *)
Definition save_userinfo (tool_context : ToolContext) (user_name country : string)
  : ToolContext * gmap string value :=
  let tool_context := state_set "user:name" (VStr user_name) tool_context in
  let tool_context := state_set "user:country" (VStr country) tool_context in
  (tool_context, {[ "status" := VStr "success" ]}).

Definition retrieve_userinfo (tool_context : ToolContext) : gmap string value :=
  let user_name := state_get "user:name" (VStr "Unknown") tool_context in
  let country := state_get "user:country" (VStr "Unknown") tool_context in
  <["country" := country]> {[ "user_name" := user_name ]}.

(** ** The SDK as a parameter *)

Class Framework (F : Type) := {
  (** [load_dotenv()] on the process environment *)
  load_dotenv : gmap string string → gmap string string;
  (** the attribute [Runner.app_name] *)
  runner_app_name : Runner → string;
  create_session :
    SessionService → string → string → string → F → F * (Session + exn);
  get_session :
    SessionService → string → string → string → F → F * (option Session + exn);
  (** the events streamed by one [run_async], and the exception that ended
      the stream, if any *)
  run_async :
    Runner → string → string → Content → F → F * (list Event * option exn)
}.

(** ** The world and the script monad *)

Record World (F : Type) := mkWorld {
  fw : F;                                   (* state of the SDK and its back ends *)
  environ : gmap string string;             (* os.environ *)
  console : list string;                    (* one entry per print call *)
  session_service : option SessionService;  (* the module global, unset at first *)
  sdk_log : list Call;                      (* SDK calls so far, oldest first *)
  next_oid : nat                            (* identity of the next object *)
}.
Arguments mkWorld {F}.
Arguments fw {F}.
Arguments environ {F}.
Arguments console {F}.
Arguments session_service {F}.
Arguments sdk_log {F}.
Arguments next_oid {F}.

Definition M (F A : Type) : Type := World F → World F * Res A.

Section Monad.

Context {F : Type}.

Definition set_fw (f : F) (w : World F) : World F :=
  mkWorld f (environ w) (console w) (session_service w) (sdk_log w) (next_oid w).
Definition set_environ (e : gmap string string) (w : World F) : World F :=
  mkWorld (fw w) e (console w) (session_service w) (sdk_log w) (next_oid w).
Definition add_console (line : string) (w : World F) : World F :=
  mkWorld (fw w) (environ w) (console w ++ [line]) (session_service w)
          (sdk_log w) (next_oid w).
Definition set_session_service (s : SessionService) (w : World F) : World F :=
  mkWorld (fw w) (environ w) (console w) (Some s) (sdk_log w) (next_oid w).
Definition add_log (c : Call) (w : World F) : World F :=
  mkWorld (fw w) (environ w) (console w) (session_service w)
          (sdk_log w ++ [c]) (next_oid w).
Definition bump_oid (w : World F) : World F :=
  mkWorld (fw w) (environ w) (console w) (session_service w) (sdk_log w)
          (S (next_oid w)).

Definition ret {A} (a : A) : M F A := λ w, (w, Ret a).
Definition raise {A} (e : exn) : M F A := λ w, (w, Raise e).
Definition py_exit {A} : M F A := λ w, (w, Exit).

Definition bind {A B} (m : M F A) (k : A → M F B) : M F B :=
  λ w, match m w with
       | (w', Ret a) => k a w'
       | (w', Raise e) => (w', Raise e)
       | (w', Exit) => (w', Exit)
       end.

(** [try: m  except Exception as e: h e] *)
Definition try_except {A} (m : M F A) (h : exn → M F A) : M F A :=
  λ w, match m w with
       | (w', Raise e) => h e w'
       | r => r
       end.

End Monad.

Notation "'do' x <- m ; k" := (bind m (λ x, k))
  (at level 10, x name, m at level 100, k at level 200,
   format "'[v' 'do'  x  <-  m ; '/' k ']'").
Notation "'run' m ; k" := (bind m (λ _, k))
  (at level 10, m at level 100, k at level 200,
   format "'[v' 'run'  m ; '/' k ']'").

(** ** The script *)

Section Script.

Context {F : Type} {sdk : Framework F}.

Definition py_print (line : string) : M F unit := λ w, (add_console line w, Ret tt).

Definition construct (o : SdkObject) : M F unit := λ w, (add_log (Construct o) w, Ret tt).

(** Reading the global [session_service]. *)
Definition global_session_service : M F SessionService :=
  λ w, match session_service w with
       | Some s => (w, Ret s)
       | None => (w, Raise (NameError "session_service"))
       end.

Definition of_answer {A} (a : A + exn) : Res A :=
  match a with inl x => Ret x | inr e => Raise e end.

Definition call_create_session (svc : SessionService) (app user sid : string)
  : M F Session :=
  λ w, let '(f, a) := create_session svc app user sid (fw w) in
       (add_log (CreateSession svc app user sid a) (set_fw f w), of_answer a).

Definition call_get_session (svc : SessionService) (app user sid : string)
  : M F (option Session) :=
  λ w, let '(f, a) := get_session svc app user sid (fw w) in
       (add_log (GetSession svc app user sid a) (set_fw f w), of_answer a).

Definition call_run_async (r : Runner) (user sid : string) (msg : Content)
  : M F (list Event * option exn) :=
  λ w, let '(f, (evs, fin)) := run_async r user sid msg (fw w) in
       (add_log (RunAsync r user sid msg evs fin) (set_fw f w), Ret (evs, fin)).

(** ** Module level: credentials and constants *)

Definition call_load_dotenv : M F unit :=
  λ w, (set_environ (load_dotenv (environ w)) w, Ret tt).

(** [os.getenv(name)] *)
Definition os_getenv (name : string) : M F (option string) :=
  λ w, (w, Ret (environ w !! name)).

(** [os.environ[name] = value] *)
Definition os_environ_set (name value : string) : M F unit :=
  λ w, (set_environ (<[name := value]> (environ w)) w, Ret tt).

(** Lines 16-27. *)
Definition load_credentials : M F unit :=
  run call_load_dotenv;
  try_except
    (do GOOGLE_API_KEY <- os_getenv "GOOGLE_API_KEY";
     match GOOGLE_API_KEY with
     | Some key =>
         if str_truthy key then
           run os_environ_set "GOOGLE_API_KEY" key;
           py_print " Gemini API key setup complete."
         else raise (ValueError "Gemini API Key not found in .env file.")
     | None => raise (ValueError "Gemini API Key not found in .env file.")
     end)
    (λ e, run py_print (" Authentication Error: " ++ exn_str e); py_exit).

Definition retry_config : HttpRetryOptions :=
  mkHttpRetryOptions 5 7 1 [429; 500; 503; 504].

Definition APP_NAME : string := "default".
Definition USER_ID : string := "default".
Definition MODEL_NAME : string := "gemini-2.5-flash-lite".

(** ** run_session *)

(** Lines 77-80: one streamed event. *)
Definition handle_event (event : Event) : M F unit :=
  match content event with
  | Some c =>
      match parts c with
      | Some (p :: _) =>
          match text p with
          | Some response =>
              if str_truthy response && negb (String.eqb response "None")
              then py_print (MODEL_NAME ++ " > " ++ response)
              else ret tt
          | None => ret tt
          end
      | _ => ret tt
      end
  | None => ret tt
  end.

Fixpoint handle_events (events : list Event) : M F unit :=
  match events with
  | [] => ret tt
  | event :: rest => run handle_event event; handle_events rest
  end.

(** [session.id]; [session] is [None] when [get_session] found nothing. *)
Definition get_id (session : option Session) : M F string :=
  match session with
  | Some s => ret (session_id s)
  | None => raise (AttributeError "'NoneType' object has no attribute 'id'")
  end.

Definition user_content (query : string) : Content :=
  mkContent (Some "user") (Some [mkPart (Some query)]).

(** Lines 70-80: the body of the loop for one query. *)
Definition send_query (runner_instance : Runner) (session : option Session)
    (query : string) : M F unit :=
  run py_print (nl ++ "User > " ++ query);
  let content := user_content query in
  do sid <- get_id session;
  do stream <- call_run_async runner_instance USER_ID sid content;
  run handle_events (fst stream);
  match snd stream with
  | Some e => raise e
  | None => ret tt
  end.

Fixpoint query_loop (runner_instance : Runner) (session : option Session)
    (user_queries : list string) : M F unit :=
  match user_queries with
  | [] => ret tt
  | query :: rest =>
      run send_query runner_instance session query;
      query_loop runner_instance session rest
  end.

(** Lines 50-58. *)
Definition acquire_session (runner_instance : Runner) (session_name : string)
  : M F (option Session) :=
  try_except
    (do svc <- global_session_service;
     do s <- call_create_session svc (runner_app_name runner_instance) USER_ID
               session_name;
     ret (Some s))
    (λ _,
     do svc <- global_session_service;
     call_get_session svc (runner_app_name runner_instance) USER_ID session_name).

(** Lines 60-62. *)
Definition normalize_queries (user_queries : Queries) : Queries :=
  if queries_truthy user_queries && isinstance_str user_queries then
    match user_queries with
    | QStr s => QList [s]
    | other => other
    end
  else user_queries.

(** What [for query in user_queries] iterates over.  After line 62 the
    argument is always a non-empty list; the other two branches are kept as
    Python has them (a string iterates by character). *)
Definition iterate (user_queries : Queries) : M F (list string) :=
  match user_queries with
  | QList l => ret l
  | QStr s => ret ((λ c, String c EmptyString) <$> String.list_ascii_of_string s)
  | QNone => raise (TypeError "'NoneType' object is not iterable")
  end.

(** Lines 60-80. *)
Definition run_queries (runner_instance : Runner) (session : option Session)
    (user_queries : Queries) : M F unit :=
  let user_queries := normalize_queries user_queries in
  if negb (queries_truthy user_queries) then
    py_print "No queries provided."
  else
    do items <- iterate user_queries;
    query_loop runner_instance session items.

(** The f-string of line 48. *)
Definition session_header (session_name : string) : string :=
  nl ++ " ### Session: " ++ session_name.

Definition run_session (runner_instance : Runner) (user_queries : Queries)
    (session_name : string) : M F unit :=
  run py_print (session_header session_name);
  do session <- acquire_session runner_instance session_name;
  run_queries runner_instance session user_queries.

(** ** The demos *)

(** [session_service = InMemorySessionService()] *)
Definition new_InMemorySessionService : M F SessionService :=
  λ w, let svc := InMemorySessionService (next_oid w) in
       (add_log (Construct (OSessionService svc)) (bump_oid w), Ret svc).

(** [session_service = DatabaseSessionService(db_url=db_url)] *)
Definition new_DatabaseSessionService (db_url : string) : M F SessionService :=
  do _ <- construct (OSessionService (DatabaseSessionService db_url));
  ret (DatabaseSessionService db_url).

Definition assign_session_service (svc : SessionService) : M F unit :=
  λ w, (set_session_service svc w, Ret tt).

Definition new_Gemini (g : Gemini) : M F Gemini :=
  run construct (OGemini g); ret g.
Definition new_Agent (a : Agent) : M F Agent :=
  run construct (OAgent a); ret a.
Definition new_EventsCompactionConfig (c : EventsCompactionConfig)
  : M F EventsCompactionConfig :=
  run construct (OEventsCompactionConfig c); ret c.
Definition new_App (a : App) : M F App :=
  run construct (OApp a); ret a.
Definition new_Runner (r : Runner) : M F Runner :=
  run construct (ORunner r); ret r.

Definition in_memory_banner : string :=
  nl ++ "🚀 Running In-Memory Session Demo...".
Definition persistent_banner : string :=
  nl ++ "💾 Running Persistent Database Session Demo...".
Definition compaction_banner : string :=
  nl ++ "🧠 Running Context Compaction Demo...".
Definition state_banner : string :=
  nl ++ "👤 Running Session State Demo...".

(** Lines 83-103. *)
Definition in_memory_session_demo : M F unit :=
  run py_print in_memory_banner;
  do llm <- new_Gemini (mkGemini MODEL_NAME (Some retry_config));
  do root_agent <- new_Agent
       (mkAgent cls_Agent llm "text_chat_bot" "A simple text chatbot." []);
  do svc <- new_InMemorySessionService;
  run assign_session_service svc;
  do session_service <- global_session_service;
  do runner <- new_Runner
       (mkRunner (Some root_agent) None (Some APP_NAME) session_service);
  run_session runner
    (QList [ "Hi, I am Sam! What is the capital of the United States?";
             "Hello! What is my name?" ])
    "stateful-agentic-session".

(** Lines 106-134. *)
Definition persistent_session_demo : M F unit :=
  run py_print persistent_banner;
  do llm <- new_Gemini (mkGemini MODEL_NAME (Some retry_config));
  do chatbot_agent <- new_Agent
       (mkAgent cls_LlmAgent llm "text_chat_bot"
          "A chatbot with persistent memory." []);
  let db_url := "sqlite:///my_agent_data.db" in
  do svc <- new_DatabaseSessionService db_url;
  run assign_session_service svc;
  do session_service <- global_session_service;
  do runner <- new_Runner
       (mkRunner (Some chatbot_agent) None (Some APP_NAME) session_service);
  run run_session runner
    (QList [ "Hi, I am Sam! What is the capital of the United States?";
             "Hello! What is my name?" ])
    "test-db-session-01";
  run_session runner
    (QList [ "What is the capital of India?"; "What is my name?" ])
    "test-db-session-01".

(** Lines 138-166. *)
Definition context_compaction_demo : M F unit :=
  run py_print compaction_banner;
  do llm <- new_Gemini (mkGemini MODEL_NAME (Some retry_config));
  do chatbot_agent <- new_Agent
       (mkAgent cls_LlmAgent llm "text_chat_bot"
          "A chatbot with context compaction." []);
  do cfg <- new_EventsCompactionConfig (mkEventsCompactionConfig 3 1);
  do research_app <- new_App
       (mkApp "research_app_compacting" chatbot_agent (Some cfg));
  let db_url := "sqlite:///my_agent_data.db" in
  do svc <- new_DatabaseSessionService db_url;
  run assign_session_service svc;
  do session_service <- global_session_service;
  do runner <- new_Runner (mkRunner None (Some research_app) None session_service);
  run run_session runner
    (QStr "What is the latest news about AI in healthcare?") "compaction_demo";
  run run_session runner
    (QStr "Are there any new developments in drug discovery?") "compaction_demo";
  run run_session runner
    (QStr "Tell me more about drug discovery.") "compaction_demo";
  run_session runner
    (QStr "Who are the main companies in this field?") "compaction_demo".

(** Lines 182-204. *)
Definition session_state_demo : M F unit :=
  run py_print state_banner;
  do llm <- new_Gemini (mkGemini MODEL_NAME (Some retry_config));
  do root_agent <- new_Agent
       (mkAgent cls_LlmAgent llm "text_chat_bot"
          "A chatbot with session state management."
          [tool_save_userinfo; tool_retrieve_userinfo]);
  do svc <- new_InMemorySessionService;
  run assign_session_service svc;
  do session_service <- global_session_service;
  do runner <- new_Runner
       (mkRunner (Some root_agent) None (Some APP_NAME) session_service);
  run_session runner
    (QList [ "Hi there, what is my name?";
             "My name is Sam. I'm from Poland.";
             "What is my name? Which country am I from?" ])
    "state-demo-session".

(** ** The main block *)

(** [asyncio.run(coro)]: runs the coroutine to its end and hands on what it
    returns or raises. *)
Definition asyncio_run {A} (coro : M F A) : M F A := coro.

(** Lines 208-212. *)
Definition main_block : M F unit :=
  run asyncio_run in_memory_session_demo;
  run asyncio_run persistent_session_demo;
  run asyncio_run context_compaction_demo;
  asyncio_run session_state_demo.

(** The module body, top to bottom; [is_main] is [__name__ == "__main__"]. *)
Definition script (is_main : bool) : M F unit :=
  run load_credentials;
  run construct (OHttpRetryOptions retry_config);
  if is_main then main_block else ret tt.

End Script.

(** ** Reading the console and the log *)

(** The text of the first part of an event whose content has a non-empty
    parts list. *)
Definition first_text (event : Event) : option string :=
  match content event with
  | Some c =>
      match parts c with
      | Some (p :: _) => text p
      | _ => None
      end
  | None => None
  end.

(** The console line an event gives rise to: none when there is no such
    text, when the text is empty, or when it is the string None. *)
Definition reply_line (event : Event) : option string :=
  match first_text event with
  | Some t =>
      if decide (t = EmptyString ∨ t = "None") then None
      else Some (MODEL_NAME ++ " > " ++ t)
  | None => None
  end.

Definition reply_lines (events : list Event) : list string :=
  omap reply_line events.

(** What one query leaves on the console: its own line, then the replies. *)
Definition shown (query : string) (answer : list Event * option exn)
  : list string :=
  (nl ++ "User > " ++ query) :: reply_lines answer.1.

(** The log entry of one query sent through [r] in session [s]. *)
Definition sent (r : Runner) (s : Session) (query : string)
    (answer : list Event * option exn) : Call :=
  RunAsync r USER_ID (session_id s) (user_content query) answer.1 answer.2.

Definition is_run_async (c : Call) : bool :=
  match c with RunAsync _ _ _ _ _ _ => true | _ => false end.

Definition is_construct (c : Call) : bool :=
  match c with Construct _ => true | _ => false end.

(** ** Notions the statements are written in *)

Section Notions.

Context {F : Type} {sdk : Framework F}.

(** The world after the SDK moved to [f], [lines] were printed and [calls]
    were logged. *)
Definition after (f : F) (lines : list string) (calls : list Call) (w : World F)
  : World F :=
  mkWorld f (environ w) (console w ++ lines) (session_service w)
          (sdk_log w ++ calls) (next_oid w).

(** How a run over [qs] can end, [answers] being what the runner streamed:
    every query was answered and the loop returned, or the last answer
    failed, its exception was raised and no further query was sent. *)
Definition loop_result (qs : list string)
    (answers : list (list Event * option exn)) (res : Res unit) : Prop :=
  (res = Ret tt ∧ length answers = length qs ∧
   Forall (λ a, a.2 = None) answers)
  ∨ (∃ pre evs e,
       answers = (pre ++ [(evs, Some e)])%list ∧ Forall (λ a, a.2 = None) pre ∧
       res = Raise e ∧ (length answers ≤ length qs)%nat).

Definition is_session_call (c : Call) : bool :=
  match c with
  | CreateSession _ _ _ _ _ | GetSession _ _ _ _ _ => true
  | _ => false
  end.

(** The items the loop would go through, by the argument given. *)
Definition queries_list (q : Queries) : list string :=
  match q with
  | QNone => []
  | QStr s => if str_truthy s then [s] else []
  | QList l => l
  end.

(** The lines [run_session] prints besides its header. *)
Definition session_line (line : string) : Prop :=
  line = "No queries provided."
  ∨ (∃ q, line = nl ++ "User > " ++ q)
  ∨ (∃ t, line = MODEL_NAME ++ " > " ++ t).

(** A failed stream is the last one, and its exception is the outcome. *)
Definition failure_is_last (qs : list string)
    (answers : list (list Event * option exn)) (res : Res unit) : Prop :=
  Forall (λ a, a.2 = None) answers
  ∨ (∃ pre evs e,
       answers = (pre ++ [(evs, Some e)])%list ∧ Forall (λ a, a.2 = None) pre ∧
       res = Raise e ∧ (length answers ≤ length qs)%nat).

(** What the statements about re-use assume of a session service:
    [has_session f svc app user sid] says that the session exists in SDK
    state [f].  Creating or fetching a session makes it exist; an existing
    session makes [create_session] raise and [get_session] return it; no
    call of the script removes a session; answers carry the id asked for. *)
Class SessionStore := {
  has_session : F → SessionService → string → string → string → Prop;
  create_session_new svc a u n f f' s :
    create_session svc a u n f = (f', inl s) →
    has_session f' svc a u n ∧ session_id s = n;
  get_session_some svc a u n f f' s :
    get_session svc a u n f = (f', inl (Some s)) →
    has_session f' svc a u n ∧ session_id s = n;
  create_session_dup svc a u n f :
    has_session f svc a u n → ∃ e, (create_session svc a u n f).2 = inr e;
  get_session_found svc a u n f :
    has_session f svc a u n → ∃ s, (get_session svc a u n f).2 = inl (Some s);
  create_session_keeps svc a u n f svc' a' u' n' :
    has_session f svc a u n →
    has_session (create_session svc' a' u' n' f).1 svc a u n;
  get_session_keeps svc a u n f svc' a' u' n' :
    has_session f svc a u n →
    has_session (get_session svc' a' u' n' f).1 svc a u n;
  run_async_keeps svc a u n f r u' sid msg :
    has_session f svc a u n →
    has_session (run_async r u' sid msg f).1 svc a u n
}.

(** The objects the demos build, by the literals of the source. *)
Definition gemini_model : Gemini := mkGemini MODEL_NAME (Some retry_config).

Definition in_memory_agent : Agent :=
  mkAgent cls_Agent gemini_model "text_chat_bot" "A simple text chatbot." [].
Definition persistent_agent : Agent :=
  mkAgent cls_LlmAgent gemini_model "text_chat_bot"
    "A chatbot with persistent memory." [].
Definition compaction_agent : Agent :=
  mkAgent cls_LlmAgent gemini_model "text_chat_bot"
    "A chatbot with context compaction." [].
Definition state_agent : Agent :=
  mkAgent cls_LlmAgent gemini_model "text_chat_bot"
    "A chatbot with session state management."
    [tool_save_userinfo; tool_retrieve_userinfo].

Definition compaction_config : EventsCompactionConfig :=
  mkEventsCompactionConfig 3 1.
Definition research_app : App :=
  mkApp "research_app_compacting" compaction_agent (Some compaction_config).

Definition db_service : SessionService :=
  DatabaseSessionService "sqlite:///my_agent_data.db".

Definition in_memory_runner (svc : SessionService) : Runner :=
  mkRunner (Some in_memory_agent) None (Some APP_NAME) svc.
Definition persistent_runner : Runner :=
  mkRunner (Some persistent_agent) None (Some APP_NAME) db_service.
Definition compaction_runner : Runner :=
  mkRunner None (Some research_app) None db_service.
Definition state_runner (svc : SessionService) : Runner :=
  mkRunner (Some state_agent) None (Some APP_NAME) svc.

Definition greeting_queries : list string :=
  [ "Hi, I am Sam! What is the capital of the United States?";
    "Hello! What is my name?" ].
Definition followup_queries : list string :=
  [ "What is the capital of India?"; "What is my name?" ].
Definition compaction_queries : list string :=
  [ "What is the latest news about AI in healthcare?";
    "Are there any new developments in drug discovery?";
    "Tell me more about drug discovery.";
    "Who are the main companies in this field?" ].
Definition state_queries : list string :=
  [ "Hi there, what is my name?";
    "My name is Sam. I'm from Poland.";
    "What is my name? Which country am I from?" ].

(** The world in which a demo makes its first [run_session] call: banner
    printed, objects built, the global set to [svc]. *)
Definition prepared (banner : string) (svc : SessionService)
    (built : list Call) (fresh : nat) (w : World F) : World F :=
  mkWorld (fw w) (environ w) (console w ++ [banner]) (Some svc)
          (sdk_log w ++ built) (fresh + next_oid w).

Definition in_memory_built (svc : SessionService) : list Call :=
  [ Construct (OGemini gemini_model); Construct (OAgent in_memory_agent);
    Construct (OSessionService svc); Construct (ORunner (in_memory_runner svc)) ].
Definition persistent_built : list Call :=
  [ Construct (OGemini gemini_model); Construct (OAgent persistent_agent);
    Construct (OSessionService db_service);
    Construct (ORunner persistent_runner) ].
Definition compaction_built : list Call :=
  [ Construct (OGemini gemini_model); Construct (OAgent compaction_agent);
    Construct (OEventsCompactionConfig compaction_config);
    Construct (OApp research_app);
    Construct (OSessionService db_service);
    Construct (ORunner compaction_runner) ].
Definition state_built (svc : SessionService) : list Call :=
  [ Construct (OGemini gemini_model); Construct (OAgent state_agent);
    Construct (OSessionService svc); Construct (ORunner (state_runner svc)) ].

Definition banners : list string :=
  [in_memory_banner; persistent_banner; compaction_banner; state_banner].

(** A line printed inside [run_session]. *)
Definition chat_line (line : string) : Prop :=
  (∃ name, line = session_header name) ∨ session_line line.

(** A call made inside [run_session r qs ..]: a session call, or one of the
    queries of [qs], as it is, sent through [r]. *)
Definition request_of (r : Runner) (qs : list string) (c : Call) : Prop :=
  is_session_call c = true
  ∨ ∃ sid q evs fin,
      q ∈ qs ∧
      c = RunAsync r USER_ID sid
            (mkContent (Some "user") (Some [mkPart (Some q)])) evs fin.

(** The message of a call to the runner. *)
Definition sent_message (c : Call) : option Content :=
  match c with
  | RunAsync _ _ _ new_message _ _ => Some new_message
  | _ => None
  end.

(** [m] talks through runner [r] about [qs]: it prints chat lines only; its
    calls are session calls and queries of [qs] sent through [r]; the
    messages it sends are the first [n] queries, in order and as they are,
    and all of them when it returns.  Environment, global and object counter
    are left alone. *)
Definition talks (r : Runner) (qs : list string) (m : M F unit) : Prop :=
  ∀ w, ∃ f lines calls n,
    (m w).1 = after f lines calls w
    ∧ Forall chat_line lines
    ∧ Forall (request_of r qs) calls
    ∧ (n ≤ length qs)%nat
    ∧ omap sent_message calls = user_content <$> take n qs
    ∧ ((m w).2 = Ret tt → n = length qs).

(** After a demo that printed [banner], built [built], chose [svc] and then
    talked through runner [r] about [qs]; [res] is how it ended. *)
Definition demo_done (w w' : World F) (res : Res unit) (banner : string)
    (svc : SessionService) (built : list Call) (fresh : nat) (r : Runner)
    (qs : list string) : Prop :=
  ∃ f lines calls n,
    w' = mkWorld f (environ w) (console w ++ banner :: lines) (Some svc)
           (sdk_log w ++ built ++ calls) (fresh + next_oid w)
    ∧ Forall chat_line lines
    ∧ Forall (request_of r qs) calls
    ∧ (n ≤ length qs)%nat
    ∧ omap sent_message calls = user_content <$> take n qs
    ∧ (res = Ret tt → n = length qs).

(** A call to the runner whose stream failed. *)
Definition failed (c : Call) : bool :=
  match c with
  | RunAsync _ _ _ _ _ (Some _) => true
  | _ => false
  end.

(** A demo that builds one session service [svc], of the kind [expected],
    then one runner over it, and leaves the global set to [svc]. *)
Definition selects_store (demo : M F unit) (expected : SessionService → Prop)
  : Prop :=
  ∀ w : World F, ∃ before svc r rest,
    sdk_log (demo w).1 =
      (sdk_log w ++ before ++
         [Construct (OSessionService svc); Construct (ORunner r)] ++ rest)%list
    ∧ Forall (λ c, ∀ o, c = Construct o →
                (∀ s, o ≠ OSessionService s) ∧ (∀ r', o ≠ ORunner r'))
        (before ++ rest)
    ∧ expected svc
    ∧ runner_session_service r = svc
    ∧ session_service (demo w).1 = Some svc.

(** [in_order demos w w' res]: the routines of [demos] were run one after the
    other from world [w], each started in the world the one before it left
    when it returned; the run ended in [w'] with [res], at the end of the
    list or at the first routine that did not return. *)
Inductive in_order : list (M F unit) → World F → World F → Res unit → Prop :=
  | in_order_done w :
      in_order [] w w (Ret tt)
  | in_order_next demo demos w w1 w' res :
      demo w = (w1, Ret tt) →
      in_order demos w1 w' res →
      in_order (demo :: demos) w w' res
  | in_order_stop demo demos w w1 res :
      demo w = (w1, res) →
      res ≠ Ret tt →
      in_order (demo :: demos) w w1 res.

(** The banners on a console, in the order printed. *)
Definition banners_on (lines : list string) : list string :=
  filter (λ line, line ∈ banners) lines.

(** The session calls by which [run_session] came to session [s]: it was
    created, or its creation raised and it was fetched. *)
Definition obtains (svc : SessionService) (app name : string) (s : Session)
    (acq : list Call) : Prop :=
  acq = [CreateSession svc app USER_ID name (inl s)]
  ∨ ∃ e, acq = [CreateSession svc app USER_ID name (inr e);
                GetSession svc app USER_ID name (inl (Some s))].

(** Every query of the script, in the order the main block sends them. *)
Definition all_queries : list string :=
  (greeting_queries ++ greeting_queries ++ followup_queries ++
   compaction_queries ++ state_queries)%list.

(** Whatever else [m] logs, the messages it hands to a runner are the first
    [n] queries of [qs], in order and as they are, and all of them when it
    returns. *)
Definition sends (qs : list string) (m : M F unit) : Prop :=
  ∀ w, ∃ new n,
    sdk_log (m w).1 = (sdk_log w ++ new)%list
    ∧ (n ≤ length qs)%nat
    ∧ omap sent_message new = user_content <$> take n qs
    ∧ ((m w).2 = Ret tt → n = length qs).

(** The two session calls of the fallback: the creation that raised [e]
    and the fetch that returned [s]. *)
Definition refetch (svc : SessionService) (app name : string) (e : exn)
    (s : Session) : list Call :=
  [ CreateSession svc app USER_ID name (inr e);
    GetSession svc app USER_ID name (inl (Some s)) ].

(** Query [q] sent through [r] in session [s] and answered by [events]
    without failure. *)
Definition asked (r : Runner) (s : Session) (q : string) (events : list Event)
  : Call :=
  RunAsync r USER_ID (session_id s) (user_content q) events None.

(** What the runner streams for the queries [qs] of session [s], sent one
    after the other from SDK state [f]: the answer of [run_async] to each
    query, in the state the query before it left, up to and including the
    first stream that fails; and the SDK state after the last call. *)
Fixpoint streamed (r : Runner) (s : Session) (qs : list string) (f : F)
  : list (list Event * option exn) * F :=
  match qs with
  | [] => ([], f)
  | q :: rest =>
      let result := run_async r USER_ID (session_id s) (user_content q) f in
      match result.2.2 with
      | Some _ => ([result.2], result.1)
      | None =>
          let more := streamed r s rest result.1 in
          (result.2 :: more.1, more.2)
      end
  end.

(** How the loop ends on these answers: with the exception of the last
    stream when that one failed, and by returning otherwise. *)
Definition stream_outcome (answers : list (list Event * option exn))
  : Res unit :=
  match last answers with
  | Some (_, Some e) => Raise e
  | _ => Ret tt
  end.


End Notions.

(** Runs the construction steps of a demo by computation, up to its first
    [run_session]. *)
Ltac unfold_setup :=
  cbv beta iota zeta delta
    [bind py_print new_Gemini new_Agent new_Runner new_App
     new_EventsCompactionConfig new_InMemorySessionService
     new_DatabaseSessionService assign_session_service
     global_session_service construct ret add_log add_console
     set_session_service bump_oid prepared
     fw environ console session_service sdk_log next_oid];
  rewrite <- ?app_assoc; reflexivity.

(** ** A reference SDK

    A small executable [Framework]: the state is the list of sessions that
    exist; creating an existing session raises, fetching it returns it; the
    runner streams one event without content and one that echoes the parts
    of the message.  It serves to run the script on concrete inputs. *)

Definition Store : Type := list (SessionService * string * string * string).

#[global] Instance echo_sdk : Framework Store := {|
  load_dotenv env := env;
  runner_app_name r :=
    match runner_app_name_arg r, runner_app r with
    | Some name, _ => name
    | None, Some app => app_name_of app
    | None, None => EmptyString
    end;
  create_session svc app user sid st :=
    if decide ((svc, app, user, sid) ∈ st)
    then (st, inr (Exn "AlreadyExistsError" ("Session already exists: " ++ sid)))
    else ((svc, app, user, sid) :: st, inl (mkSession sid));
  get_session svc app user sid st :=
    if decide ((svc, app, user, sid) ∈ st)
    then (st, inl (Some (mkSession sid)))
    else (st, inl None);
  run_async r user sid msg st :=
    (st, ([mkEvent None; mkEvent (Some (mkContent (Some "model") (parts msg)))],
          None))
|}.

#[global] Instance echo_store : SessionStore (F := Store).
Proof.
  refine {| has_session st svc app user sid := (svc, app, user, sid) ∈ st |}.
  - intros svc a u n f f' s. cbn. case_decide; [done|].
    intros [= <- <-]. split; [apply elem_of_cons; by left|done].
  - intros svc a u n f f' s. cbn. case_decide; [|done].
    by intros [= <- <-].
  - intros svc a u n f Hin. cbn. rewrite decide_True by done. by eexists.
  - intros svc a u n f Hin. cbn. rewrite decide_True by done. by eexists.
  - intros svc a u n f svc' a' u' n' Hin. cbn. case_decide; [done|].
    apply elem_of_cons. by right.
  - intros svc a u n f svc' a' u' n' Hin. cbn. by case_decide.
  - intros svc a u n f r u' sid msg Hin. done.
Defined.

(** Two SDKs whose session service fails: one that is down, so that every
    call raises, and one that refuses to create and finds nothing. *)
Definition down_sdk : Framework unit := {|
  load_dotenv env := env;
  runner_app_name r := default APP_NAME (runner_app_name_arg r);
  create_session svc app user sid st :=
    (st, inr (Exn "OperationalError" "database is locked"));
  get_session svc app user sid st :=
    (st, inr (Exn "OperationalError" "unable to open database file"));
  run_async r user sid msg st := (st, ([], Some (Exn "ServerError" "503")))
|}.

Definition forgetful_sdk : Framework unit := {|
  load_dotenv env := env;
  runner_app_name r := default APP_NAME (runner_app_name_arg r);
  create_session svc app user sid st :=
    (st, inr (Exn "ValueError" "invalid session id"));
  get_session svc app user sid st := (st, inl None);
  run_async r user sid msg st := (st, ([], None))
|}.

Definition unit_world : World unit :=
  mkWorld tt ∅ [] (Some db_service) [] 0.

(** A process whose database already holds the session of the persistent
    demo. *)
Definition rerun_world : World Store :=
  mkWorld [(db_service, "default", "default", "test-db-session-01")] ∅ []
          None [] 0.

(** A fresh process with the key set, and one in which the database service
    is the global. *)
Definition fresh_world : World Store :=
  mkWorld [] {[ "GOOGLE_API_KEY" := "secret" ]} [] None [] 0.
Definition db_world : World Store :=
  mkWorld [] ∅ [] (Some db_service) [] 0.

(** * Facts *)

Section Facts.

Context {F : Type} {sdk : Framework F}.

(** ** The monad and the console *)

Lemma after_after f1 l1 c1 f2 l2 c2 (w : World F) :
  after f2 l2 c2 (after f1 l1 c1 w) = after f2 (l1 ++ l2) (c1 ++ c2) w.
Proof. unfold after; simpl. by rewrite <- !app_assoc. Qed.

Lemma after_nil (w : World F) : after (fw w) [] [] w = w.
Proof. destruct w; unfold after; simpl. by rewrite !app_nil_r. Qed.

Lemma py_print_after line (w : World F) :
  py_print line w = (after (fw w) [line] [] w, Ret tt).
Proof. destruct w; unfold py_print, add_console, after; simpl. by rewrite app_nil_r. Qed.

Lemma str_truthy_false s : str_truthy s = false ↔ s = EmptyString.
Proof. destruct s; simpl; split; congruence. Qed.

Lemma handle_event_after event (w : World F) :
  handle_event event w =
  (after (fw w) (option_list (reply_line event)) [] w, Ret tt).
Proof.
  unfold handle_event, reply_line, first_text.
  destruct (content event) as [c|]; [|by rewrite after_nil].
  destruct (parts c) as [[|p ps]|]; try by rewrite after_nil.
  destruct (text p) as [t|]; [|by rewrite after_nil].
  destruct (str_truthy t) eqn:Ht; simpl.
  - destruct (String.eqb_spec t "None") as [->|Hne]; simpl.
    + by rewrite after_nil.
    + rewrite decide_False; [apply py_print_after|].
      intros [->| ->]; [discriminate | done].
  - apply str_truthy_false in Ht as ->. by rewrite after_nil.
Qed.

Lemma handle_events_after events (w : World F) :
  handle_events events w = (after (fw w) (reply_lines events) [] w, Ret tt).
Proof.
  revert w; induction events as [|event rest IH]; intros w; simpl.
  - by rewrite after_nil.
  - unfold bind. rewrite handle_event_after, IH, after_after. simpl.
    unfold reply_lines; simpl.
    by destruct (reply_line event).
Qed.

(** One query, the session being there: one call, its replies printed, and a
    failure of the stream raised after them. *)
Lemma send_query_after r s query (w : World F) :
  let a := run_async r USER_ID (session_id s) (user_content query) (fw w) in
  send_query r (Some s) query w =
  (after a.1 (shown query a.2) [sent r s query a.2] w,
   match a.2.2 with Some e => Raise e | None => Ret tt end).
Proof.
  simpl. unfold send_query, bind, get_id, ret, call_run_async.
  rewrite py_print_after. simpl.
  destruct (run_async r USER_ID (session_id s) (user_content query) (fw w))
    as [f [evs fin]] eqn:Hrun; simpl.
  rewrite handle_events_after. simpl.
  replace (after f (reply_lines evs) []
             (add_log (RunAsync r USER_ID (session_id s) (user_content query) evs fin)
                (set_fw f (after (fw w) [nl ++ "User > " ++ query] [] w))))
    with (after f (shown query (evs, fin)) [sent r s query (evs, fin)] w).
  - by destruct fin.
  - destruct w; unfold after, add_log, set_fw, shown, sent; simpl.
    by rewrite !app_nil_r, <- !app_assoc.
Qed.

Lemma query_loop_cons r s q qs (w : World F) :
  query_loop r (Some s) (q :: qs) w =
  let a := run_async r USER_ID (session_id s) (user_content q) (fw w) in
  match a.2.2 with
  | Some e => (after a.1 (shown q a.2) [sent r s q a.2] w, Raise e)
  | None => query_loop r (Some s) qs (after a.1 (shown q a.2) [sent r s q a.2] w)
  end.
Proof.
  cbn [query_loop]. unfold bind. rewrite send_query_after. cbv zeta.
  by destruct (run_async r USER_ID (session_id s) (user_content q) (fw w)).2.2.
Qed.

Lemma query_loop_after qs r s (w : World F) :
  ∃ f answers,
    (query_loop r (Some s) qs w).1 =
      after f (concat (zip_with shown qs answers))
              (zip_with (sent r s) qs answers) w
    ∧ loop_result qs answers (query_loop r (Some s) qs w).2.
Proof.
  revert w; induction qs as [|q qs IH]; intros w.
  - exists (fw w), []. simpl. rewrite after_nil. split; [done|].
    left. by repeat split.
  - rewrite query_loop_cons. cbv zeta.
    destruct (run_async r USER_ID (session_id s) (user_content q) (fw w))
      as [f [evs fin]] eqn:Hrun; cbn [fst snd].
    destruct fin as [e|].
    + exists f, [(evs, Some e)]. cbn [zip_with concat fst snd].
      rewrite !zip_with_nil_r. cbn [concat]. rewrite app_nil_r.
      split; [done|].
      right. exists [], evs, e. repeat split; auto. simpl; lia.
    + destruct (IH (after f (shown q (evs, None)) [sent r s q (evs, None)] w))
        as (f' & answers & Hw & Hres).
      exists f', ((evs, None) :: answers). split.
      * rewrite Hw, after_after. done.
      * destruct Hres as [(Hr & Hlen & Hall)|(pre & evs' & e & -> & Hpre & Hr & Hlen)].
        -- left. repeat split; [done|simpl; lia|by constructor].
        -- right. exists ((evs, None) :: pre), evs', e.
           repeat split; [by constructor|done|simpl in *; lia].
Qed.

Lemma stream_outcome_cons a answers :
  a.2 = None → stream_outcome (a :: answers) = stream_outcome answers.
Proof.
  destruct a as [evs fin]. cbn. intros ->. unfold stream_outcome.
  by destruct answers.
Qed.

(** The loop computes what [streamed] says. *)
Lemma query_loop_streamed qs r s (w : World F) :
  query_loop r (Some s) qs w =
  (after (streamed r s qs (fw w)).2
     (concat (zip_with shown qs (streamed r s qs (fw w)).1))
     (zip_with (sent r s) qs (streamed r s qs (fw w)).1) w,
   stream_outcome (streamed r s qs (fw w)).1).
Proof.
  revert w; induction qs as [|q qs IH]; intros w.
  - cbn. by rewrite after_nil.
  - rewrite query_loop_cons. cbv zeta. cbn [streamed].
    destruct (run_async r USER_ID (session_id s) (user_content q) (fw w))
      as [f [evs [e|]]]; cbn [fst snd].
    + cbn [zip_with concat]. by rewrite !zip_with_nil_r, app_nil_r.
    + rewrite IH, after_after. cbn [fw after zip_with concat].
      by rewrite stream_outcome_cons.
Qed.

Lemma streamed_loop_result qs r s (f : F) :
  loop_result qs (streamed r s qs f).1 (stream_outcome (streamed r s qs f).1).
Proof.
  revert f; induction qs as [|q qs IH]; intros f.
  - left. by repeat split.
  - cbn [streamed].
    destruct (run_async r USER_ID (session_id s) (user_content q) f)
      as [f1 [evs [e|]]]; cbn [fst snd].
    + right. exists [], evs, e. repeat split; [constructor|cbn; lia].
    + rewrite stream_outcome_cons by done.
      destruct (IH f1) as [(Hr & Hlen & Hall)|(pre & evs' & e & Heq & Hpre & Hr & Hlen)].
      * left. split; [done|]. split; [cbn; lia|by constructor].
      * right. exists ((evs, None) :: pre), evs', e.
        split; [by rewrite Heq|]. split; [by constructor|].
        split; [done|cbn; lia].
Qed.

(** ** Obtaining the session *)

Lemma acquire_session_unset r name (w : World F) :
  session_service w = None →
  acquire_session r name w = (w, Raise (NameError "session_service")).
Proof.
  intros Hs. unfold acquire_session, try_except, bind, global_session_service.
  rewrite Hs. cbn. by rewrite Hs.
Qed.

Lemma acquire_session_created r name (w : World F) svc f s :
  session_service w = Some svc →
  create_session svc (runner_app_name r) USER_ID name (fw w) = (f, inl s) →
  acquire_session r name w =
  (after f [] [CreateSession svc (runner_app_name r) USER_ID name (inl s)] w,
   Ret (Some s)).
Proof.
  intros Hs Hc.
  unfold acquire_session, try_except, bind, global_session_service,
    call_create_session, ret.
  rewrite Hs, Hc. cbn.
  destruct w; unfold after, add_log, set_fw; cbn. by rewrite app_nil_r.
Qed.

Lemma acquire_session_fetched r name (w : World F) svc f e f' a :
  session_service w = Some svc →
  create_session svc (runner_app_name r) USER_ID name (fw w) = (f, inr e) →
  get_session svc (runner_app_name r) USER_ID name f = (f', a) →
  acquire_session r name w =
  (after f' []
     [CreateSession svc (runner_app_name r) USER_ID name (inr e);
      GetSession svc (runner_app_name r) USER_ID name a] w,
   of_answer a).
Proof.
  intros Hs Hc Hg.
  unfold acquire_session, try_except, bind, global_session_service,
    call_create_session, call_get_session, ret.
  rewrite Hs, Hc. cbn. rewrite Hs. cbn. rewrite Hg.
  destruct w; unfold after, add_log, set_fw; cbn.
  by rewrite app_nil_r, <- app_assoc.
Qed.

(** Whatever the service answers, obtaining the session prints nothing and
    logs session calls only. *)
Lemma acquire_session_after r name (w : World F) :
  ∃ f calls,
    (acquire_session r name w).1 = after f [] calls w ∧
    forallb is_session_call calls = true.
Proof.
  destruct (session_service w) as [svc|] eqn:Hs.
  - destruct (create_session svc (runner_app_name r) USER_ID name (fw w))
      as [f [s|e]] eqn:Hc.
    + rewrite (acquire_session_created _ _ _ _ _ _ Hs Hc). by eexists _, _.
    + destruct (get_session svc (runner_app_name r) USER_ID name f)
        as [f' a] eqn:Hg.
      rewrite (acquire_session_fetched _ _ _ _ _ _ _ _ Hs Hc Hg).
      by eexists _, _.
  - rewrite (acquire_session_unset _ _ _ Hs).
    exists (fw w), []. by rewrite after_nil.
Qed.

(** ** The queries *)

Lemma run_queries_none r session q (w : World F) :
  queries_truthy q = false →
  run_queries r session q w =
  (after (fw w) ["No queries provided."] [] w, Ret tt).
Proof.
  intros Hq. unfold run_queries, normalize_queries. rewrite Hq. cbn.
  rewrite Hq. cbn. apply py_print_after.
Qed.

Lemma run_queries_list r session q qs (w : World F) :
  run_queries r session (QList (q :: qs)) w =
  query_loop r session (q :: qs) w.
Proof. reflexivity. Qed.

Lemma run_queries_str r session s (w : World F) :
  s ≠ EmptyString →
  run_queries r session (QStr s) w = run_queries r session (QList [s]) w.
Proof. intros Hs. destruct s; [done|reflexivity]. Qed.

Lemma run_session_eq r q name (w : World F) :
  run_session r q name w =
  match acquire_session r name (after (fw w) [session_header name] [] w) with
  | (w1, Ret session) => run_queries r session q w1
  | (w1, Raise e) => (w1, Raise e)
  | (w1, Exit) => (w1, Exit)
  end.
Proof. unfold run_session, bind. by rewrite py_print_after. Qed.


(** ** What a call of [run_session] does to the world *)

Lemma shown_session_lines q a : Forall session_line (shown q a).
Proof.
  unfold shown. constructor; [right; left; by eexists|].
  unfold reply_lines. apply Forall_forall. intros line Hin.
  apply list_elem_of_omap in Hin as (ev & _ & Hev).
  unfold reply_line in Hev. destruct (first_text ev) as [t|]; [|done].
  case_decide; [done|]. injection Hev as <-. right; right; by eexists.
Qed.

Lemma zip_shown_session_lines qs answers :
  Forall session_line (concat (zip_with shown qs answers)).
Proof.
  revert answers; induction qs as [|q qs IH]; intros [|a answers];
    cbn [zip_with concat]; try by constructor.
  apply Forall_app. split; [apply shown_session_lines|apply IH].
Qed.

Lemma loop_result_failure qs answers res :
  loop_result qs answers res → failure_is_last qs answers res.
Proof. intros [(_ & _ & Hall)|Hfail]; [by left|by right]. Qed.

Lemma loop_result_returned qs answers :
  loop_result qs answers (Ret tt) → length answers = length qs.
Proof. by intros [(_ & ? & _)|(? & ? & ? & _ & _ & ? & _)]. Qed.

Lemma run_queries_after r session q (w : World F) :
  ∃ f s answers lines,
    (run_queries r session q w).1 =
      after f lines (zip_with (sent r s) (queries_list q) answers) w
    ∧ Forall session_line lines
    ∧ failure_is_last (queries_list q) answers (run_queries r session q w).2
    ∧ ((run_queries r session q w).2 = Ret tt →
       length answers = length (queries_list q)).
Proof.
  destruct (queries_truthy q) eqn:Hq.
  - assert (∃ q1 qs, queries_list q = q1 :: qs ∧
              run_queries r session q w = query_loop r session (q1 :: qs) w)
      as (q1 & qs & Hl & ->).
    { destruct q as [|[|c s]|[|q1 qs]]; try discriminate; by eexists _, _. }
    rewrite Hl. destruct session as [s|].
    + destruct (query_loop_after (q1 :: qs) r s w) as (f & answers & Hw & Hres).
      exists f, s, answers, (concat (zip_with shown (q1 :: qs) answers)).
      split; [done|].
      split; [apply zip_shown_session_lines|].
      split; [by apply loop_result_failure|].
      intros Hret. rewrite Hret in Hres. by apply loop_result_returned.
    + exists (fw w), (mkSession EmptyString), [], [nl ++ "User > " ++ q1].
      assert (query_loop r None (q1 :: qs) w =
              (after (fw w) [nl ++ "User > " ++ q1] [] w,
               Raise (AttributeError "'NoneType' object has no attribute 'id'")))
        as ->.
      { cbn [query_loop]. unfold bind, send_query, bind, get_id, raise.
        by rewrite py_print_after. }
      repeat split; [|by left|done].
      constructor; [right; left; by eexists|constructor].
  - rewrite run_queries_none by done.
    exists (fw w), (mkSession EmptyString), [], ["No queries provided."].
    assert (queries_list q = []) as ->
      by (by destruct q as [|[|c s]|[|q1 qs]]).
    repeat split; [|by left].
    constructor; [by left|constructor].
Qed.

Lemma acquire_session_no_exit r name (w : World F) :
  (acquire_session r name w).2 ≠ Exit.
Proof.
  destruct (session_service w) as [svc|] eqn:Hs.
  - destruct (create_session svc (runner_app_name r) USER_ID name (fw w))
      as [f [s|e]] eqn:Hc.
    + by rewrite (acquire_session_created _ _ _ _ _ _ Hs Hc).
    + destruct (get_session svc (runner_app_name r) USER_ID name f)
        as [f' a] eqn:Hg.
      rewrite (acquire_session_fetched _ _ _ _ _ _ _ _ Hs Hc Hg).
      by destruct a.
  - by rewrite (acquire_session_unset _ _ _ Hs).
Qed.

Lemma run_session_after r q name (w : World F) :
  ∃ f acq s answers lines,
    (run_session r q name w).1 =
      after f (session_header name :: lines)
        (acq ++ zip_with (sent r s) (queries_list q) answers) w
    ∧ forallb is_session_call acq = true
    ∧ Forall session_line lines
    ∧ failure_is_last (queries_list q) answers (run_session r q name w).2
    ∧ ((run_session r q name w).2 = Ret tt →
       length answers = length (queries_list q)).
Proof.
  rewrite run_session_eq.
  destruct (acquire_session_after r name
              (after (fw w) [session_header name] [] w))
    as (f & acq & Hw & Hacq).
  pose proof (acquire_session_no_exit r name
                (after (fw w) [session_header name] [] w)) as Hne.
  destruct (acquire_session r name (after (fw w) [session_header name] [] w))
    as [w1 [session|e|]]; cbn [fst snd] in Hw, Hne; subst w1; [| |done].
  - destruct (run_queries_after r session q
                (after f [] acq (after (fw w) [session_header name] [] w)))
      as (f' & s & answers & lines & Hw & Hlines & Hfail & Hlen).
    rewrite !after_after in Hw, Hfail, Hlen. cbn [app] in Hw, Hfail, Hlen.
    exists f', acq, s, answers, lines. rewrite !after_after. cbn [app].
    rewrite Hw, after_after. by cbn [app].
  - exists f, acq, (mkSession EmptyString), [], []. rewrite after_after.
    cbn. rewrite zip_with_nil_r, app_nil_r. repeat split; try done. by left.
Qed.

(** ** Sessions that are there stay there *)

Section Store.

Context {store : SessionStore (F := F)}.

Lemma query_loop_keeps svc a u n r session qs (w : World F) :
  has_session (fw w) svc a u n →
  has_session (fw (query_loop r session qs w).1) svc a u n.
Proof.
  destruct session as [s|].
  - revert w; induction qs as [|q qs IH]; intros w Hw; [done|].
    rewrite query_loop_cons. cbv zeta.
    pose proof (run_async_keeps _ _ _ _ _ r USER_ID (session_id s)
                  (user_content q) Hw) as Hk.
    destruct (run_async r USER_ID (session_id s) (user_content q) (fw w))
      as [f [evs [e|]]]; cbn [fst snd] in *; [done|].
    by apply IH.
  - destruct qs as [|q qs]; [done|].
    cbn [query_loop]. unfold bind, send_query, bind, get_id, raise.
    by rewrite py_print_after.
Qed.


(** When the session was obtained, it exists afterwards. *)
Lemma acquire_session_has r name (w wa : World F) svc s :
  session_service w = Some svc →
  acquire_session r name w = (wa, Ret (Some s)) →
  has_session (fw wa) svc (runner_app_name r) USER_ID name
  ∧ session_id s = name ∧ session_service wa = Some svc.
Proof.
  intros Hs Hacq.
  destruct (create_session svc (runner_app_name r) USER_ID name (fw w))
    as [f [s'|e]] eqn:Hc.
  - rewrite (acquire_session_created _ _ _ _ _ _ Hs Hc) in Hacq.
    injection Hacq as <- <-. by apply create_session_new in Hc as [? ?].
  - destruct (get_session svc (runner_app_name r) USER_ID name f)
      as [f' a] eqn:Hg.
    rewrite (acquire_session_fetched _ _ _ _ _ _ _ _ Hs Hc Hg) in Hacq.
    destruct a as [[s'|]|e']; cbn in Hacq; try discriminate.
    injection Hacq as <- <-. by apply get_session_some in Hg as [? ?].
Qed.

(** When the session exists, obtaining it goes through the handler: the
    creation raises and the session is fetched. *)
Lemma acquire_session_existing r name (w : World F) svc :
  session_service w = Some svc →
  has_session (fw w) svc (runner_app_name r) USER_ID name →
  ∃ f e f' s,
    create_session svc (runner_app_name r) USER_ID name (fw w) = (f, inr e)
    ∧ get_session svc (runner_app_name r) USER_ID name f = (f', inl (Some s))
    ∧ session_id s = name
    ∧ has_session f' svc (runner_app_name r) USER_ID name.
Proof.
  intros Hs Hhas.
  destruct (create_session_dup _ _ _ _ _ Hhas) as [e He].
  pose proof (create_session_keeps _ _ _ _ _ svc (runner_app_name r) USER_ID
                name Hhas) as Hk.
  destruct (create_session svc (runner_app_name r) USER_ID name (fw w))
    as [f a] eqn:Hc; cbn [fst snd] in *; subst a.
  destruct (get_session_found _ _ _ _ _ Hk) as [s Hsome].
  destruct (get_session svc (runner_app_name r) USER_ID name f)
    as [f' a] eqn:Hg; cbn [fst snd] in *; subst a.
  exists f, e, f', s. repeat split; try done;
    by apply get_session_some in Hg as [? ?].
Qed.

End Store.

(** ** run_session: the claims *)

(** C1.  Query loop.  Once the session [s] is obtained, [run_session] on a
    non-empty list calls [run_async] of the runner for the queries in list
    order, each call in the SDK state the one before it left, addressed to
    user [USER_ID] and session [s.id], the message being a [Content] of role
    user with the query as its single text part.  On the console each query
    is followed by one line per event of its stream whose first part has a
    text that is neither empty nor the string None.  All queries are sent
    when no stream fails; a failing stream is the last one, and its exception
    is raised. *)
Theorem run_session_sends_queries r qs name (w wa : World F) s :
  qs ≠ [] →
  acquire_session r name (after (fw w) [session_header name] [] w)
    = (wa, Ret (Some s)) →
  let answers := (streamed r s qs (fw wa)).1 in
  run_session r (QList qs) name w =
    (after (streamed r s qs (fw wa)).2
       (concat (zip_with
          (λ q a, (nl ++ "User > " ++ q) :: reply_lines a.1) qs answers))
       (zip_with
          (λ q a, RunAsync r USER_ID (session_id s)
                    (mkContent (Some "user") (Some [mkPart (Some q)]))
                    a.1 a.2) qs answers)
       wa,
     stream_outcome answers)
  ∧ head answers
    = (λ q, (run_async r USER_ID (session_id s)
               (mkContent (Some "user") (Some [mkPart (Some q)])) (fw wa)).2)
        <$> head qs
  ∧ loop_result qs answers (stream_outcome answers).
Proof.
  intros Hqs Hacq. cbv zeta. rewrite run_session_eq, Hacq.
  destruct qs as [|q qs]; [done|]. rewrite run_queries_list.
  split; [apply query_loop_streamed|].
  split; [|apply streamed_loop_result].
  cbn [streamed head fmap option_fmap option_map]. unfold user_content.
  by destruct (run_async r USER_ID (session_id s) _ (fw wa))
    as [f [evs [e|]]].
Qed.


(** C9.  No queries.  With [None], the empty string or the empty list,
    [run_session] never calls the runner; once the session step is over it
    prints "No queries provided." and returns.  A non-empty string is treated
    as the list holding just that string. *)
Theorem run_session_no_queries r name (w : World F) q :
  q ∈ [QNone; QStr EmptyString; QList []] →
  filter (λ c, is_run_async c = true) (sdk_log (run_session r q name w).1)
    = filter (λ c, is_run_async c = true) (sdk_log w)
  ∧ (∀ w1 session,
       acquire_session r name (after (fw w) [session_header name] [] w)
         = (w1, Ret session) →
       run_session r q name w
         = (after (fw w1) ["No queries provided."] [] w1, Ret tt))
  ∧ (∀ s, s ≠ EmptyString →
       run_session r (QStr s) name w = run_session r (QList [s]) name w).
Proof.
  intros Hq.
  assert (queries_truthy q = false) as Hfalse.
  { set_unfold in Hq. by destruct Hq as [->|[->|[->|[]]]]. }
  assert (queries_list q = []) as Hnil.
  { set_unfold in Hq. by destruct Hq as [->|[->|[->|[]]]]. }
  repeat split.
  - destruct (run_session_after r q name w)
      as (f & acq & s & answers & lines & -> & Hacq & _).
    rewrite Hnil. cbn [zip_with after sdk_log]. rewrite app_nil_r.
    rewrite filter_app.
    replace (filter (λ c, is_run_async c = true) acq) with (@nil Call);
      [by rewrite app_nil_r|].
    clear -Hacq. induction acq as [|c acq IH]; [done|].
    cbn in Hacq. apply andb_prop in Hacq as [Hc Hacq].
    rewrite filter_cons, decide_False; [by apply IH|].
    destruct c; cbn in *; congruence.
  - intros w1 session Hacq. rewrite run_session_eq, Hacq.
    by apply run_queries_none.
  - intros s Hne. rewrite !run_session_eq.
    destruct (acquire_session r name _) as [w1 [session|e|]]; try done.
    by apply run_queries_str.
Qed.

(** ** The credential check *)

Lemma load_credentials_with_key (w : World F) c key :
  load_dotenv (environ w) !! "GOOGLE_API_KEY" = Some (String c key) →
  load_credentials w =
  (mkWorld (fw w)
     (<["GOOGLE_API_KEY" := String c key]> (load_dotenv (environ w)))
     (console w ++ [" Gemini API key setup complete."])
     (session_service w) (sdk_log w) (next_oid w),
   Ret tt).
Proof.
  intros Hkey.
  unfold load_credentials, bind, try_except, call_load_dotenv, os_getenv,
    os_environ_set, py_print.
  cbn. rewrite Hkey. reflexivity.
Qed.

(** C2.  Credentials.  The key is read from GOOGLE_API_KEY after
    [load_dotenv()].  With a non-empty key the loader writes it back to the
    environment and prints the setup line.  With no key or an empty one the
    script prints the authentication error and exits at once: nothing is
    constructed, the log of SDK calls is as it was. *)
Theorem load_credentials_checks_key (is_main : bool) (w : World F) :
  let env := load_dotenv (environ w) in
  match env !! "GOOGLE_API_KEY" with
  | Some (String c key) =>
      load_credentials w =
      (mkWorld (fw w) (<["GOOGLE_API_KEY" := String c key]> env)
         (console w ++ [" Gemini API key setup complete."])
         (session_service w) (sdk_log w) (next_oid w),
       Ret tt)
  | _ =>
      script is_main w =
      (mkWorld (fw w) env
         (console w ++
            [" Authentication Error: Gemini API Key not found in .env file."])
         (session_service w) (sdk_log w) (next_oid w),
       Exit)
  end.
Proof.
  cbv zeta.
  destruct (load_dotenv (environ w) !! "GOOGLE_API_KEY") as [[|c key]|] eqn:Hkey;
    unfold script, load_credentials, bind, try_except, call_load_dotenv,
      os_getenv, os_environ_set, py_print, py_exit, raise;
    cbn; rewrite Hkey; reflexivity.
Qed.

(** ** The demos *)

Lemma in_memory_session_demo_eq (w : World F) :
  let svc := InMemorySessionService (next_oid w) in
  in_memory_session_demo w =
  run_session (in_memory_runner svc) (QList greeting_queries)
    "stateful-agentic-session"
    (prepared in_memory_banner svc (in_memory_built svc) 1 w).
Proof.
  destruct w. unfold in_memory_session_demo. unfold_setup.
Qed.

Lemma persistent_session_demo_eq (w : World F) :
  persistent_session_demo w =
  (run run_session persistent_runner (QList greeting_queries)
         "test-db-session-01";
   run_session persistent_runner (QList followup_queries) "test-db-session-01")
    (prepared persistent_banner db_service persistent_built 0 w).
Proof.
  destruct w. unfold persistent_session_demo. unfold_setup.
Qed.

Lemma context_compaction_demo_eq (w : World F) :
  context_compaction_demo w =
  (run run_session compaction_runner
         (QStr "What is the latest news about AI in healthcare?")
         "compaction_demo";
   run run_session compaction_runner
         (QStr "Are there any new developments in drug discovery?")
         "compaction_demo";
   run run_session compaction_runner
         (QStr "Tell me more about drug discovery.") "compaction_demo";
   run_session compaction_runner
     (QStr "Who are the main companies in this field?") "compaction_demo")
    (prepared compaction_banner db_service compaction_built 0 w).
Proof.
  destruct w. unfold context_compaction_demo. unfold_setup.
Qed.

Lemma session_state_demo_eq (w : World F) :
  let svc := InMemorySessionService (next_oid w) in
  session_state_demo w =
  run_session (state_runner svc) (QList state_queries) "state-demo-session"
    (prepared state_banner svc (state_built svc) 1 w).
Proof.
  destruct w. unfold session_state_demo. unfold_setup.
Qed.

Lemma chat_line_not_banner line : chat_line line → line ∉ banners.
Proof.
  intros Hline Hin. unfold banners in Hin. set_unfold in Hin.
  destruct Hline as [[name ->]|[->|[[q ->]| [t ->]]]];
    destruct Hin as [Hb|[Hb|[Hb|[Hb|[]]]]]; cbv in Hb; discriminate Hb.
Qed.

Lemma zip_with_sent_request r s qs answers :
  Forall (request_of r qs) (zip_with (sent r s) qs answers).
Proof.
  apply Forall_forall. intros c Hc.
  apply list_elem_of_lookup in Hc as [i Hi].
  apply lookup_zip_with_Some in Hi as (q & a & -> & Hq & _).
  right. exists (session_id s), q, a.1, a.2. split; [|done].
  apply list_elem_of_lookup. by exists i.
Qed.

Lemma zip_with_sent_messages r s qs answers :
  omap sent_message (zip_with (sent r s) qs answers)
  = user_content <$> take (length answers) qs.
Proof.
  revert answers; induction qs as [|q qs IH]; intros [|a answers]; cbn;
    try done.
  by rewrite IH.
Qed.

Lemma session_calls_no_message acq :
  forallb is_session_call acq = true → omap sent_message acq = [].
Proof.
  induction acq as [|c acq IH]; [done|]. cbn. intros Hacq.
  apply andb_prop in Hacq as [Hc Hacq]. rewrite (IH Hacq).
  by destruct c.
Qed.

Lemma talks_run_session r q name :
  talks r (queries_list q) (run_session r q name).
Proof.
  intros w.
  destruct (run_session_after r q name w)
    as (f & acq & s & answers & lines & Hw & Hacq & Hlines & _ & Hlen).
  exists f, (session_header name :: lines),
    (acq ++ zip_with (sent r s) (queries_list q) answers)%list,
    (length answers `min` length (queries_list q))%nat.
  split; [done|]. split; [|split; [|split; [|split]]].
  - constructor; [left; by eexists|].
    eapply Forall_impl; [done|]. intros l Hl. by right.
  - apply Forall_app. split; [|apply zip_with_sent_request].
    apply Forall_forall. intros c Hc. left.
    rewrite forallb_forall in Hacq. apply Hacq. by apply list_elem_of_In.
  - lia.
  - rewrite omap_app, session_calls_no_message by done. cbn.
    rewrite zip_with_sent_messages. f_equal.
    destruct (decide (length answers ≤ length (queries_list q))%nat).
    + by rewrite Nat.min_l.
    + rewrite Nat.min_r by lia. by rewrite !take_ge by lia.
  - intros Hret. rewrite (Hlen Hret). lia.
Qed.

Lemma talks_run_session_str r s name :
  s ≠ EmptyString → talks r [s] (run_session r (QStr s) name).
Proof.
  intros Hs. pose proof (talks_run_session r (QStr s) name) as Ht.
  by destruct s.
Qed.

Lemma request_of_mono r qs qs' c :
  qs ⊆ qs' → request_of r qs c → request_of r qs' c.
Proof.
  intros Hsub [Hc|(sid & q & evs & fin & Hq & ->)]; [by left|].
  right. exists sid, q, evs, fin. split; [by apply Hsub|done].
Qed.

Lemma talks_bind r qs1 qs2 (m k : M F unit) :
  talks r qs1 m → talks r qs2 k → talks r (qs1 ++ qs2) (run m; k).
Proof.
  intros Hm Hk w. unfold bind.
  destruct (Hm w) as (f & lines & calls & n & Hw & Hlines & Hcalls & Hn & Hmsg & Hret).
  assert (Forall (request_of r (qs1 ++ qs2)) calls) as Hcalls1.
  { eapply Forall_impl; [done|]. intros c. apply request_of_mono.
    intros q Hq. apply elem_of_app. by left. }
  destruct (m w) as [w1 [[]|e|]]; cbn [fst snd] in Hw, Hret; subst w1.
  - destruct (Hk (after f lines calls w))
      as (f' & lines' & calls' & n' & Hw' & Hlines' & Hcalls' & Hn' & Hmsg' & Hret').
    exists f', (lines ++ lines')%list, (calls ++ calls')%list,
      (length qs1 + n')%nat.
    rewrite Hw', after_after. split; [done|].
    split; [by apply Forall_app|].
    split.
    { apply Forall_app. split; [done|].
      eapply Forall_impl; [done|]. intros c. apply request_of_mono.
      intros q Hq. apply elem_of_app. by right. }
    split; [rewrite length_app; lia|].
    split.
    + rewrite omap_app, Hmsg, Hmsg', (Hret eq_refl).
      rewrite take_ge by lia. rewrite take_app_add'  by done.
      by rewrite fmap_app.
    + intros Hr. rewrite (Hret' Hr), length_app. done.
  - exists f, lines, calls, n.
    split; [done|]. split; [done|]. split; [done|].
    split; [rewrite length_app; lia|].
    split; [|done]. rewrite Hmsg. f_equal.
    by rewrite take_app_le by lia.
  - exists f, lines, calls, n.
    split; [done|]. split; [done|]. split; [done|].
    split; [rewrite length_app; lia|].
    split; [|done]. rewrite Hmsg. f_equal.
    by rewrite take_app_le by lia.
Qed.

Lemma after_prepared f lines calls banner svc built fresh (w : World F) :
  after f lines calls (prepared banner svc built fresh w) =
  mkWorld f (environ w) (console w ++ banner :: lines) (Some svc)
          (sdk_log w ++ built ++ calls) (fresh + next_oid w).
Proof. unfold after, prepared; cbn. by rewrite <- !app_assoc. Qed.

Lemma talks_demo_done r qs (m : M F unit) banner svc built fresh (w : World F) :
  talks r qs m →
  demo_done w (m (prepared banner svc built fresh w)).1
    (m (prepared banner svc built fresh w)).2 banner svc built fresh r qs.
Proof.
  intros Hm.
  destruct (Hm (prepared banner svc built fresh w))
    as (f & lines & calls & n & -> & Hrest).
  exists f, lines, calls, n. by rewrite after_prepared.
Qed.

Lemma in_memory_session_demo_done (w : World F) :
  let svc := InMemorySessionService (next_oid w) in
  demo_done w (in_memory_session_demo w).1 (in_memory_session_demo w).2
    in_memory_banner svc (in_memory_built svc) 1 (in_memory_runner svc)
    greeting_queries.
Proof.
  cbv zeta. rewrite in_memory_session_demo_eq. cbv zeta.
  apply talks_demo_done, (talks_run_session _ (QList greeting_queries)).
Qed.

Lemma session_state_demo_done (w : World F) :
  let svc := InMemorySessionService (next_oid w) in
  demo_done w (session_state_demo w).1 (session_state_demo w).2
    state_banner svc (state_built svc) 1 (state_runner svc) state_queries.
Proof.
  cbv zeta. rewrite session_state_demo_eq. cbv zeta.
  apply talks_demo_done, (talks_run_session _ (QList state_queries)).
Qed.

Lemma persistent_session_demo_done (w : World F) :
  demo_done w (persistent_session_demo w).1 (persistent_session_demo w).2
    persistent_banner db_service persistent_built 0 persistent_runner
    (greeting_queries ++ followup_queries).
Proof.
  rewrite persistent_session_demo_eq.
  apply talks_demo_done, talks_bind;
    [apply (talks_run_session _ (QList greeting_queries))
    |apply (talks_run_session _ (QList followup_queries))].
Qed.

Lemma context_compaction_demo_done (w : World F) :
  demo_done w (context_compaction_demo w).1 (context_compaction_demo w).2
    compaction_banner db_service compaction_built 0 compaction_runner
    compaction_queries.
Proof.
  rewrite context_compaction_demo_eq.
  apply talks_demo_done.
  apply (talks_bind _ [_] [_; _; _]); [by apply talks_run_session_str|].
  apply (talks_bind _ [_] [_; _]); [by apply talks_run_session_str|].
  apply (talks_bind _ [_] [_]); by apply talks_run_session_str.
Qed.

Lemma request_not_construct r qs c : request_of r qs c → is_construct c = false.
Proof.
  intros [Hc|(sid & q & evs & fin & _ & ->)]; [by destruct c|done].
Qed.

Lemma failed_is_last (l : list Call) y before x rest :
  (l ++ [y] = before ++ x :: rest)%list →
  Forall (λ c, failed c = false) l → failed x = true →
  rest = [] ∧ x = y.
Proof.
  revert before; induction l as [|a l IH]; intros before Heq Hl Hx.
  - destruct before as [|b before]; cbn in Heq.
    + by injection Heq as -> <-.
    + injection Heq as _ Heq. by destruct before.
  - destruct before as [|b before]; cbn in Heq.
    + injection Heq as -> _. apply Forall_cons in Hl as [Ha _]. congruence.
    + injection Heq as _ Heq. apply Forall_cons in Hl as [_ Hl]. by eapply IH.
Qed.

Lemma zip_with_sent_not_failed r s qs answers :
  Forall (λ a, a.2 = None) answers →
  Forall (λ c, failed c = false) (zip_with (sent r s) qs answers).
Proof.
  intros Hall. apply Forall_forall. intros c Hc.
  apply list_elem_of_lookup in Hc as [i Hi].
  apply lookup_zip_with_Some in Hi as (q & a & -> & _ & Ha).
  rewrite Forall_forall in Hall. unfold sent.
  rewrite (Hall a); [done|]. apply list_elem_of_lookup. by exists i.
Qed.

Lemma session_calls_not_failed acq :
  forallb is_session_call acq = true → Forall (λ c, failed c = false) acq.
Proof.
  intros Hacq. apply Forall_forall. intros c Hc.
  rewrite forallb_forall in Hacq.
  apply list_elem_of_In, Hacq in Hc. by destruct c.
Qed.

(** A failed stream ends the call of [run_session]: the call that failed is
    the last one logged and its exception is the outcome. *)
Lemma run_session_failure_is_raised r q name (w : World F)
    before r' user sid msg evs e rest :
  (sdk_log (run_session r q name w).1
   = sdk_log w ++ before ++ RunAsync r' user sid msg evs (Some e) :: rest)%list →
  rest = [] ∧ (run_session r q name w).2 = Raise e.
Proof.
  destruct (run_session_after r q name w)
    as (f & acq & s & answers & lines & Hw & Hacq & _ & Hfail & _).
  rewrite Hw. cbn [after sdk_log]. intros Heq.
  apply app_inv_head in Heq.
  apply session_calls_not_failed in Hacq.
  destruct Hfail as [Hall|(pre & evs' & e' & -> & Hpre & Hres & Hlen)].
  - exfalso.
    assert (Forall (λ c, failed c = false)
              (acq ++ zip_with (sent r s) (queries_list q) answers)) as Hnone.
    { apply Forall_app. split; [done|by apply zip_with_sent_not_failed]. }
    rewrite Heq in Hnone. apply Forall_app in Hnone as [_ Hnone].
    by apply Forall_cons in Hnone as [? _].
  - rewrite length_app in Hlen. cbn in Hlen.
    rewrite <- (take_drop (length pre) (queries_list q)) in Heq.
    destruct (drop (length pre) (queries_list q)) as [|q' qs'] eqn:Hdrop.
    { apply (f_equal length) in Hdrop. rewrite length_drop in Hdrop.
      cbn in Hdrop. lia. }
    rewrite zip_with_app in Heq by (rewrite length_take; lia).
    cbn [zip_with] in Heq. rewrite zip_with_nil_r in Heq.
    rewrite app_assoc in Heq.
    apply failed_is_last in Heq as [-> Hx]; [| |done].
    + split; [done|]. unfold sent in Hx. cbn in Hx. congruence.
    + apply Forall_app. split; [done|by apply zip_with_sent_not_failed].
Qed.

(** C3.  The retry policy is the one record [retry_config]; each demo hands
    it, as it is, to the one model it builds.  The script does not retry:
    when a stream fails, [run_session] makes no further call and raises. *)
Theorem retry_config_is_passed_to_the_model :
  retry_config = mkHttpRetryOptions 5 7 1 [429; 500; 503; 504]
  ∧ (∀ demo,
       demo ∈ [in_memory_session_demo; persistent_session_demo;
               context_compaction_demo; session_state_demo] →
       ∀ w : World F, ∃ new,
         sdk_log (demo w).1 = (sdk_log w ++ new)%list
         ∧ Construct (OGemini (mkGemini MODEL_NAME (Some retry_config))) ∈ new
         ∧ ∀ g, Construct (OGemini g) ∈ new →
                retry_options g = Some retry_config)
  ∧ (∀ r q name (w : World F) before r' user sid msg evs e rest,
       (sdk_log (run_session r q name w).1
        = sdk_log w ++ before ++ RunAsync r' user sid msg evs (Some e) :: rest)%list →
       rest = [] ∧ (run_session r q name w).2 = Raise e).
Proof.
  split; [done|]. split; [|intros; by eapply run_session_failure_is_raised].
  assert (∀ (w w' : World F) res banner svc built fresh r qs,
            demo_done w w' res banner svc built fresh r qs →
            Construct (OGemini gemini_model) ∈ built →
            (∀ g, Construct (OGemini g) ∈ built → g = gemini_model) →
            ∃ new, sdk_log w' = (sdk_log w ++ new)%list
              ∧ Construct (OGemini gemini_model) ∈ new
              ∧ ∀ g, Construct (OGemini g) ∈ new →
                     retry_options g = Some retry_config) as Hdone.
  { intros w w' res banner svc built fresh r qs
      (f & lines & calls & n & -> & _ & Hcalls & _) Hin Honly.
    exists (built ++ calls)%list. split; [done|].
    split; [apply elem_of_app; by left|].
    intros g Hg. apply elem_of_app in Hg as [Hg|Hg].
    - by rewrite (Honly g Hg).
    - rewrite Forall_forall in Hcalls.
      by apply Hcalls, request_not_construct in Hg. }
  intros demo Hdemo w. set_unfold in Hdemo.
  destruct Hdemo as [->|[->|[->|[->|[]]]]].
  - eapply Hdone; [apply in_memory_session_demo_done|..];
      unfold in_memory_built; set_unfold; [by left|].
    intros g [Hg|[Hg|[Hg|[Hg|[]]]]]; congruence.
  - eapply Hdone; [apply persistent_session_demo_done|..];
      unfold persistent_built; set_unfold; [by left|].
    intros g [Hg|[Hg|[Hg|[Hg|[]]]]]; congruence.
  - eapply Hdone; [apply context_compaction_demo_done|..];
      unfold compaction_built; set_unfold; [by left|].
    intros g [Hg|[Hg|[Hg|[Hg|[Hg|[Hg|[]]]]]]]; congruence.
  - eapply Hdone; [apply session_state_demo_done|..];
      unfold state_built; set_unfold; [by left|].
    intros g [Hg|[Hg|[Hg|[Hg|[]]]]]; congruence.
Qed.

Lemma demo_done_selects_store (w w' : World F) res banner svc before r fresh
    r' qs :
  demo_done w w' res banner svc
    (before ++ [Construct (OSessionService svc); Construct (ORunner r)])
    fresh r' qs →
  Forall (λ c, ∀ o, c = Construct o →
            (∀ s, o ≠ OSessionService s) ∧ (∀ r', o ≠ ORunner r')) before →
  ∃ rest,
    sdk_log w' =
      (sdk_log w ++ before ++
         [Construct (OSessionService svc); Construct (ORunner r)] ++ rest)%list
    ∧ Forall (λ c, ∀ o, c = Construct o →
                (∀ s, o ≠ OSessionService s) ∧ (∀ r', o ≠ ORunner r'))
        (before ++ rest)
    ∧ session_service w' = Some svc.
Proof.
  intros (f & lines & calls & n & -> & _ & Hcalls & _) Hbefore.
  exists calls. cbn [sdk_log session_service].
  split; [by rewrite <- !app_assoc|]. split; [|done].
  apply Forall_app. split; [done|].
  eapply Forall_impl; [done|].
  intros c Hc o ->. by apply request_not_construct in Hc.
Qed.

(** C4.  Each demo builds exactly one session service, before its runner,
    gives it to the runner and leaves it in the global: an in-memory service
    in the in-memory and the state demo, the database service on
    sqlite:///my_agent_data.db in the persistent and the compaction demo. *)
Theorem demos_select_session_store :
  selects_store in_memory_session_demo
    (λ svc, ∃ oid, svc = InMemorySessionService oid)
  ∧ selects_store session_state_demo
      (λ svc, ∃ oid, svc = InMemorySessionService oid)
  ∧ selects_store persistent_session_demo
      (λ svc, svc = DatabaseSessionService "sqlite:///my_agent_data.db")
  ∧ selects_store context_compaction_demo
      (λ svc, svc = DatabaseSessionService "sqlite:///my_agent_data.db").
Proof.
  repeat split; intros w.
  - destruct (demo_done_selects_store w _ _ _ _
                [Construct (OGemini gemini_model); Construct (OAgent in_memory_agent)]
                _ _ _ _ (in_memory_session_demo_done w))
      as (rest & Hlog & Hall & Hsvc).
    { repeat (apply List.Forall_cons;
                [intros o [= <-]; split; intros; discriminate|]).
      apply List.Forall_nil. }
    eexists _, _, _, rest. split; [exact Hlog|]. split; [exact Hall|].
    split; [by eexists|]. by split.
  - destruct (demo_done_selects_store w _ _ _ _
                [Construct (OGemini gemini_model); Construct (OAgent state_agent)]
                _ _ _ _ (session_state_demo_done w))
      as (rest & Hlog & Hall & Hsvc).
    { repeat (apply List.Forall_cons;
                [intros o [= <-]; split; intros; discriminate|]).
      apply List.Forall_nil. }
    eexists _, _, _, rest. split; [exact Hlog|]. split; [exact Hall|].
    split; [by eexists|]. by split.
  - destruct (demo_done_selects_store w _ _ _ _
                [Construct (OGemini gemini_model); Construct (OAgent persistent_agent)]
                _ _ _ _ (persistent_session_demo_done w))
      as (rest & Hlog & Hall & Hsvc).
    { repeat (apply List.Forall_cons;
                [intros o [= <-]; split; intros; discriminate|]).
      apply List.Forall_nil. }
    eexists _, _, _, rest. split; [exact Hlog|]. split; [exact Hall|].
    split; [done|]. by split.
  - destruct (demo_done_selects_store w _ _ _ _
                [Construct (OGemini gemini_model); Construct (OAgent compaction_agent);
                 Construct (OEventsCompactionConfig compaction_config);
                 Construct (OApp research_app)]
                _ _ _ _ (context_compaction_demo_done w))
      as (rest & Hlog & Hall & Hsvc).
    { repeat (apply List.Forall_cons;
                [intros o [= <-]; split; intros; discriminate|]).
      apply List.Forall_nil. }
    eexists _, _, _, rest. split; [exact Hlog|]. split; [exact Hall|].
    split; [done|]. by split.
Qed.

(** C7.  Compaction is configuration.  The compaction demo builds the app
    research_app_compacting with an [EventsCompactionConfig] of interval 3
    and overlap 1 and a runner over that app.  Whatever the SDK answers, the
    messages the demo hands to the runner are its own queries, whole and in
    order: the first [n] of the four, and all four when it returns. *)
Theorem compaction_is_configured (w : World F) :
  ∃ f lines calls n,
    (context_compaction_demo w).1 =
      mkWorld f (environ w) (console w ++ compaction_banner :: lines)
        (Some db_service)
        (sdk_log w ++
           [ Construct (OGemini gemini_model);
             Construct (OAgent compaction_agent);
             Construct (OEventsCompactionConfig (mkEventsCompactionConfig 3 1));
             Construct (OApp (mkApp "research_app_compacting" compaction_agent
                                (Some (mkEventsCompactionConfig 3 1))));
             Construct (OSessionService db_service);
             Construct (ORunner
                          (mkRunner None
                             (Some (mkApp "research_app_compacting"
                                      compaction_agent
                                      (Some (mkEventsCompactionConfig 3 1))))
                             None db_service)) ] ++ calls)
        (next_oid w)
    ∧ Forall (request_of compaction_runner compaction_queries) calls
    ∧ (n ≤ 4)%nat
    ∧ omap sent_message calls
      = (λ q, mkContent (Some "user") (Some [mkPart (Some q)]))
          <$> take n compaction_queries
    ∧ ((context_compaction_demo w).2 = Ret tt → n = 4%nat).
Proof.
  destruct (context_compaction_demo_done w)
    as (f & lines & calls & n & Hw & _ & Hcalls & Hn & Hmsg & Hret).
  by exists f, lines, calls, n.
Qed.

(** ** The main block *)

Lemma banners_on_chat lines : Forall chat_line lines → banners_on lines = [].
Proof.
  unfold banners_on. induction 1 as [|line lines Hline _ IH]; [done|].
  rewrite filter_cons, decide_False; [done|by apply chat_line_not_banner].
Qed.

Lemma demo_done_banner (w w' : World F) res banner svc built fresh r qs :
  banner ∈ banners →
  demo_done w w' res banner svc built fresh r qs →
  banners_on (console w') = (banners_on (console w) ++ [banner])%list.
Proof.
  intros Hb (f & lines & calls & n & -> & Hlines & _). cbn [console].
  unfold banners_on. rewrite filter_app, filter_cons, decide_True by done.
  f_equal. f_equal. by apply banners_on_chat.
Qed.

Lemma main_block_in_order (w : World F) :
  in_order [in_memory_session_demo; persistent_session_demo;
            context_compaction_demo; session_state_demo]
    w (main_block w).1 (main_block w).2
  ∧ ∃ k, (1 ≤ k ≤ 4)%nat
      ∧ banners_on (console (main_block w).1)
        = (banners_on (console w) ++ take k banners)%list
      ∧ ((main_block w).2 = Ret tt → k = 4%nat).
Proof.
  unfold main_block, asyncio_run, bind.
  pose proof (in_memory_session_demo_done w) as H1. cbv zeta in H1.
  apply demo_done_banner in H1; [|set_solver].
  destruct (in_memory_session_demo w) as [w1 r1] eqn:E1. cbn [fst] in H1.
  destruct r1 as [[]|e|]; cycle 1.
  { split; [by eapply in_order_stop|]. exists 1%nat. cbn [fst snd].
    repeat split; [lia..|done|done]. }
  { split; [by eapply in_order_stop|]. exists 1%nat. cbn [fst snd].
    repeat split; [lia..|done|done]. }
  pose proof (persistent_session_demo_done w1) as H2.
  apply demo_done_banner in H2; [|set_solver].
  destruct (persistent_session_demo w1) as [w2 r2] eqn:E2. cbn [fst] in H2.
  rewrite H1, <- app_assoc in H2.
  destruct r2 as [[]|e|]; cycle 1.
  { split; [eapply in_order_next; [done|by eapply in_order_stop]|].
    exists 2%nat. cbn [fst snd]. repeat split; [lia..|done|done]. }
  { split; [eapply in_order_next; [done|by eapply in_order_stop]|].
    exists 2%nat. cbn [fst snd]. repeat split; [lia..|done|done]. }
  pose proof (context_compaction_demo_done w2) as H3.
  apply demo_done_banner in H3; [|set_solver].
  destruct (context_compaction_demo w2) as [w3 r3] eqn:E3. cbn [fst] in H3.
  rewrite H2, <- app_assoc in H3.
  destruct r3 as [[]|e|]; cycle 1.
  { split; [do 2 (eapply in_order_next; [done|]); by eapply in_order_stop|].
    exists 3%nat. cbn [fst snd]. repeat split; [lia..|done|done]. }
  { split; [do 2 (eapply in_order_next; [done|]); by eapply in_order_stop|].
    exists 3%nat. cbn [fst snd]. repeat split; [lia..|done|done]. }
  pose proof (session_state_demo_done w3) as H4. cbv zeta in H4.
  apply demo_done_banner in H4; [|set_solver].
  destruct (session_state_demo w3) as [w4 r4] eqn:E4. cbn [fst snd] in *.
  rewrite H3, <- app_assoc in H4.
  split.
  - do 3 (eapply in_order_next; [done|]).
    destruct r4 as [[]|e|].
    + eapply in_order_next; [done|constructor].
    + by eapply in_order_stop.
    + by eapply in_order_stop.
  - exists 4%nat. repeat split; [lia..|done].
Qed.

(** C5.  The main block.  With the key in place, the module body goes
    through the credential check and the retry record and, when run as the
    main program, runs the four demos in the order in-memory, persistent,
    compaction, state, each from the world the one before it left on
    returning.  The console shows their banners in that order: all four when
    the script returns, and the first [k] when a demo raises. *)
Theorem script_runs_demos_in_order (w : World F) c key :
  load_dotenv (environ w) !! "GOOGLE_API_KEY" = Some (String c key) →
  ∃ w0,
    script false w = (w0, Ret tt)
    ∧ in_order [in_memory_session_demo; persistent_session_demo;
                context_compaction_demo; session_state_demo]
        w0 (script true w).1 (script true w).2
    ∧ ∃ k, (1 ≤ k ≤ 4)%nat
        ∧ banners_on (console (script true w).1)
          = (banners_on (console w) ++ take k banners)%list
        ∧ ((script true w).2 = Ret tt → k = 4%nat).
Proof.
  intros Hkey.
  unfold script, bind. rewrite (load_credentials_with_key w c key Hkey).
  cbn [construct].
  eexists. split; [reflexivity|].
  match goal with |- in_order _ ?w0 _ _ ∧ _ =>
    destruct (main_block_in_order w0) as (Horder & k & Hk & Hb & Hret) end.
  split; [done|]. exists k. split; [done|]. split; [|done].
  rewrite Hb. f_equal. cbn [console add_log].
  unfold banners_on. rewrite filter_app, filter_cons, decide_False.
  - by rewrite filter_nil, app_nil_r.
  - unfold banners. set_unfold. intros [Hx|[Hx|[Hx|[Hx|[]]]]]; cbv in Hx; discriminate Hx.
Qed.

(** ** Two calls on one session *)

Lemma acquire_session_some r name (w wa : World F) svc s :
  session_service w = Some svc →
  acquire_session r name w = (wa, Ret (Some s)) →
  ∃ f acq, wa = after f [] acq w ∧ obtains svc (runner_app_name r) name s acq.
Proof.
  intros Hs Hacq.
  destruct (create_session svc (runner_app_name r) USER_ID name (fw w))
    as [f [s'|e]] eqn:Hc.
  - rewrite (acquire_session_created _ _ _ _ _ _ Hs Hc) in Hacq.
    injection Hacq as <- <-. eexists _, _. split; [done|by left].
  - destruct (get_session svc (runner_app_name r) USER_ID name f)
      as [f' a] eqn:Hg.
    rewrite (acquire_session_fetched _ _ _ _ _ _ _ _ Hs Hc Hg) in Hacq.
    destruct a as [[s'|]|e']; cbn in Hacq; try discriminate.
    injection Hacq as <- <-. eexists _, _. split; [done|right; by eexists].
Qed.

(** A call on a non-empty list that returned: the session was obtained and
    every query was answered by a stream that did not fail. *)
Lemma run_session_list_returned r qs name (w w' : World F) svc :
  qs ≠ [] →
  session_service w = Some svc →
  run_session r (QList qs) name w = (w', Ret tt) →
  ∃ wa s f acq answers,
    acquire_session r name (after (fw w) [session_header name] [] w)
      = (wa, Ret (Some s))
    ∧ (∃ f0, wa = after f0 [session_header name] acq w)
    ∧ w' = after f (session_header name :: concat (zip_with shown qs answers))
             (acq ++ zip_with (sent r s) qs answers) w
    ∧ fw w' = fw (query_loop r (Some s) qs wa).1
    ∧ obtains svc (runner_app_name r) name s acq
    ∧ length answers = length qs
    ∧ Forall (λ a, a.2 = None) answers.
Proof.
  intros Hqs Hs. rewrite run_session_eq.
  destruct (acquire_session r name (after (fw w) [session_header name] [] w))
    as [wa [session|e|]] eqn:Hacq; [|done..].
  destruct qs as [|q qs]; [done|]. rewrite run_queries_list.
  destruct session as [s|]; cycle 1.
  { cbn [query_loop]. unfold bind, send_query, bind, get_id, raise.
    by rewrite py_print_after. }
  intros Hloop.
  destruct (acquire_session_some r name
              (after (fw w) [session_header name] [] w) wa svc s Hs Hacq)
    as (f0 & acq & -> & Hobt).
  destruct (query_loop_after (q :: qs) r s
              (after f0 [] acq (after (fw w) [session_header name] [] w)))
    as (f & answers & Hw & Hres).
  rewrite Hloop in Hw, Hres. cbn [fst snd] in Hw, Hres.
  destruct Hres as [(_ & Hlen & Hall)|(? & ? & ? & _ & _ & ? & _)]; [|done].
  exists (after f0 [] acq (after (fw w) [session_header name] [] w)), s, f,
    acq, answers.
  split; [done|]. split; [exists f0; by rewrite after_after|].
  split; [by rewrite Hw, !after_after|].
  split; [by rewrite Hloop|]. done.
Qed.

Lemma two_answers {A} (answers : list A) :
  length answers = 2%nat → ∃ a1 a2, answers = [a1; a2].
Proof. destruct answers as [|a1 [|a2 [|]]]; try done. by eexists _, _. Qed.

Lemma persistent_batches (w w' : World F) :
  persistent_session_demo w = (w', Ret tt) →
  ∃ w1 wa1 wa2 acq1 s1 acq2 s2 ev1 ev2 ev3 ev4,
    sdk_log w' =
      (sdk_log w ++ persistent_built ++ acq1 ++
       [ RunAsync persistent_runner USER_ID (session_id s1)
           (user_content "Hi, I am Sam! What is the capital of the United States?")
           ev1 None;
         RunAsync persistent_runner USER_ID (session_id s1)
           (user_content "Hello! What is my name?") ev2 None ] ++
       acq2 ++
       [ RunAsync persistent_runner USER_ID (session_id s2)
           (user_content "What is the capital of India?") ev3 None;
         RunAsync persistent_runner USER_ID (session_id s2)
           (user_content "What is my name?") ev4 None ])%list
    ∧ obtains db_service (runner_app_name persistent_runner)
        "test-db-session-01" s1 acq1
    ∧ obtains db_service (runner_app_name persistent_runner)
        "test-db-session-01" s2 acq2
    ∧ session_service w1 = Some db_service
    ∧ acquire_session persistent_runner "test-db-session-01"
        (after (fw (prepared persistent_banner db_service persistent_built 0 w))
           [session_header "test-db-session-01"] []
           (prepared persistent_banner db_service persistent_built 0 w))
      = (wa1, Ret (Some s1))
    ∧ fw w1 = fw (query_loop persistent_runner (Some s1) greeting_queries wa1).1
    ∧ acquire_session persistent_runner "test-db-session-01"
        (after (fw w1) [session_header "test-db-session-01"] [] w1)
      = (wa2, Ret (Some s2))
    ∧ (∃ f, wa2 = after f [session_header "test-db-session-01"] acq2 w1).
Proof.
  rewrite persistent_session_demo_eq. unfold bind at 1.
  destruct (run_session persistent_runner (QList greeting_queries)
              "test-db-session-01"
              (prepared persistent_banner db_service persistent_built 0 w))
    as [w1 [[]|e|]] eqn:Hfirst; [|done..].
  intros Hsecond.
  apply run_session_list_returned with (svc := db_service) in Hfirst
    as (wa1 & s1 & f1 & acq1 & answers1 & Hacq1 & _ & Hw1 & Hfw1 & Hobt1 &
        Hlen1 & Hall1); [|done..].
  assert (session_service w1 = Some db_service) as Hsvc1 by by rewrite Hw1.
  apply run_session_list_returned with (svc := db_service) in Hsecond
    as (wa2 & s2 & f2 & acq2 & answers2 & Hacq2 & Hwa2 & Hw2 & _ & Hobt2 &
        Hlen2 & Hall2); [|done..].
  apply two_answers in Hlen1 as ([ev1 fin1] & [ev2 fin2] & ->).
  apply two_answers in Hlen2 as ([ev3 fin3] & [ev4 fin4] & ->).
  apply Forall_cons in Hall1 as [E1 Hall1]. apply Forall_cons in Hall1 as [E2 _].
  apply Forall_cons in Hall2 as [E3 Hall2]. apply Forall_cons in Hall2 as [E4 _].
  cbn in E1, E2, E3, E4. subst fin1 fin2 fin3 fin4.
  exists w1, wa1, wa2, acq1, s1, acq2, s2, ev1, ev2, ev3, ev4.
  split.
  { rewrite Hw2, Hw1. unfold prepared. cbn. by rewrite <- !app_assoc. }
  done.
Qed.

(** C6.  The persistent demo, when it returns, has called [run_session]
    twice through one runner over the database service, both times for
    session test-db-session-01: two queries in the first call and two more in
    the second, each call obtaining its session first.  Over a session store
    the second call finds the session of the first: its creation raises, the
    session is fetched, and all four queries go to the one session id. *)
Theorem persistent_demo_reuses_session (w w' : World F) :
  persistent_session_demo w = (w', Ret tt) →
  ∃ acq1 s1 acq2 s2 ev1 ev2 ev3 ev4,
    sdk_log w' =
      (sdk_log w ++
       [ Construct (OGemini gemini_model); Construct (OAgent persistent_agent);
         Construct (OSessionService
                      (DatabaseSessionService "sqlite:///my_agent_data.db"));
         Construct (ORunner persistent_runner) ] ++
       acq1 ++
       [ RunAsync persistent_runner USER_ID (session_id s1)
           (user_content "Hi, I am Sam! What is the capital of the United States?")
           ev1 None;
         RunAsync persistent_runner USER_ID (session_id s1)
           (user_content "Hello! What is my name?") ev2 None ] ++
       acq2 ++
       [ RunAsync persistent_runner USER_ID (session_id s2)
           (user_content "What is the capital of India?") ev3 None;
         RunAsync persistent_runner USER_ID (session_id s2)
           (user_content "What is my name?") ev4 None ])%list
    ∧ obtains (runner_session_service persistent_runner)
        (runner_app_name persistent_runner) "test-db-session-01" s1 acq1
    ∧ obtains (runner_session_service persistent_runner)
        (runner_app_name persistent_runner) "test-db-session-01" s2 acq2
    ∧ (∀ store : SessionStore (F := F),
         session_id s1 = "test-db-session-01"
         ∧ session_id s2 = "test-db-session-01"
         ∧ ∃ e, acq2 =
             [ CreateSession db_service (runner_app_name persistent_runner)
                 USER_ID "test-db-session-01" (inr e);
               GetSession db_service (runner_app_name persistent_runner)
                 USER_ID "test-db-session-01" (inl (Some s2)) ]).
Proof.
  intros Hdemo.
  destruct (persistent_batches w w' Hdemo)
    as (w1 & wa1 & wa2 & acq1 & s1 & acq2 & s2 & ev1 & ev2 & ev3 & ev4 &
        Hlog & Hobt1 & Hobt2 & Hsvc1 & Hacq1 & Hfw1 & Hacq2 & f & Hwa2).
  exists acq1, s1, acq2, s2, ev1, ev2, ev3, ev4.
  split; [exact Hlog|]. split; [exact Hobt1|]. split; [exact Hobt2|].
  intros store.
  apply acquire_session_has with (svc := db_service) in Hacq1
    as (Hhas & Hid1 & _); [|done].
  pose proof (query_loop_keeps _ _ _ _ persistent_runner (Some s1)
                greeting_queries wa1 Hhas) as Hhas1.
  rewrite <- Hfw1 in Hhas1.
  destruct (acquire_session_existing persistent_runner "test-db-session-01"
              (after (fw w1) [session_header "test-db-session-01"] [] w1)
              db_service Hsvc1 Hhas1)
    as (f0 & e & f' & s2' & Hc & Hg & Hid2 & _).
  rewrite (acquire_session_fetched _ _ _ db_service f0 e f' (inl (Some s2')))
    in Hacq2; [|done..].
  cbn [of_answer] in Hacq2. injection Hacq2 as Hwa2' <-.
  split; [done|]. split; [done|]. exists e.
  rewrite Hwa2, after_after in Hwa2'.
  apply (f_equal sdk_log) in Hwa2'. cbn [after sdk_log] in Hwa2'.
  apply app_inv_head in Hwa2'. done.
Qed.

(** ** Further facts on run_session *)

Lemma run_queries_truthy r session q (w : World F) :
  queries_truthy q = true →
  run_queries r session q w = query_loop r session (queries_list q) w.
Proof. intros Hq. by destruct q as [|[|c s]|[|q1 qs]]. Qed.

Lemma run_session_str_eq r s name (w : World F) :
  s ≠ EmptyString →
  run_session r (QStr s) name w = run_session r (QList [s]) name w.
Proof.
  intros Hs. rewrite !run_session_eq.
  destruct (acquire_session r name _) as [w1 [session|e|]]; try done.
  by apply run_queries_str.
Qed.

(** X1.  Without the global.  Called before any demo has assigned
    [session_service], [run_session] prints its header and raises the
    NameError of the handler's own look-up; no SDK call is made and the
    queries are not looked at. *)
Theorem run_session_needs_global r q name (w : World F) :
  session_service w = None →
  run_session r q name w =
  (after (fw w) [session_header name] [] w, Raise (NameError "session_service")).
Proof.
  intros Hs. rewrite run_session_eq.
  by rewrite (acquire_session_unset r name (after (fw w) [session_header name] [] w)).
Qed.

(** X2.  The session lives in the global service.  Whatever service the
    runner was built with and whatever the queries, even none, the first SDK
    call of [run_session] is [create_session] on the global service for the
    runner's app name, [USER_ID] and the session name; the only other
    session call it can make is the [get_session] of the same key. *)
Theorem run_session_creates_in_global_service r q name (w : World F) svc :
  session_service w = Some svc →
  ∃ answer rest,
    sdk_log (run_session r q name w).1 =
      (sdk_log w ++
       CreateSession svc (runner_app_name r) USER_ID name answer :: rest)%list
    ∧ Forall (λ c, is_session_call c = true →
                ∃ fetched,
                  c = GetSession svc (runner_app_name r) USER_ID name fetched)
        rest.
Proof.
  intros Hs. rewrite run_session_eq.
  assert (∀ s' qs answers,
            Forall (λ c, is_session_call c = true →
                      ∃ fetched,
                        c = GetSession svc (runner_app_name r) USER_ID name fetched)
              (zip_with (sent r s') qs answers)) as Hzip.
  { intros s' qs answers. apply Forall_forall. intros c Hc.
    apply list_elem_of_lookup in Hc as [i Hi].
    apply lookup_zip_with_Some in Hi as (q' & a & -> & _). done. }
  destruct (create_session svc (runner_app_name r) USER_ID name (fw w))
    as [f [s|e]] eqn:Hc.
  - rewrite (acquire_session_created r name
               (after (fw w) [session_header name] [] w) svc f s Hs Hc).
    rewrite after_after. cbn [app].
    destruct (run_queries_after r (Some s) q
                (after f [session_header name]
                   [CreateSession svc (runner_app_name r) USER_ID name (inl s)] w))
      as (f2 & s' & answers & lines & Hw & _).
    exists (inl s), (zip_with (sent r s') (queries_list q) answers).
    rewrite Hw, after_after. split; [done|apply Hzip].
  - destruct (get_session svc (runner_app_name r) USER_ID name f)
      as [f' a] eqn:Hg.
    rewrite (acquire_session_fetched r name
               (after (fw w) [session_header name] [] w) svc f e f' a Hs Hc Hg).
    rewrite after_after. cbn [app].
    destruct a as [session|e']; cbn [of_answer].
    + destruct (run_queries_after r session q
                  (after f' [session_header name]
                     [CreateSession svc (runner_app_name r) USER_ID name (inr e);
                      GetSession svc (runner_app_name r) USER_ID name
                        (inl session)] w))
        as (f2 & s' & answers & lines & Hw & _).
      exists (inr e),
        (GetSession svc (runner_app_name r) USER_ID name (inl session)
           :: zip_with (sent r s') (queries_list q) answers).
      rewrite Hw, after_after. split; [done|].
      constructor; [intros _; by eexists|apply Hzip].
    + exists (inr e),
        [GetSession svc (runner_app_name r) USER_ID name (inr e')].
      split; [done|]. constructor; [intros _; by eexists|constructor].
Qed.

(** X3.  Both session calls fail.  When [create_session] raises and
    [get_session] raises too, [run_session] ends with the exception of
    [get_session]; the one of [create_session] is dropped, the runner is not
    called and nothing but the header is printed. *)
Theorem run_session_raises_fetch_error r q name (w : World F) svc f e1 f' e2 :
  session_service w = Some svc →
  create_session svc (runner_app_name r) USER_ID name (fw w) = (f, inr e1) →
  get_session svc (runner_app_name r) USER_ID name f = (f', inr e2) →
  run_session r q name w =
  (after f' [session_header name]
     [CreateSession svc (runner_app_name r) USER_ID name (inr e1);
      GetSession svc (runner_app_name r) USER_ID name (inr e2)] w,
   Raise e2).
Proof.
  intros Hs Hc Hg. rewrite run_session_eq.
  rewrite (acquire_session_fetched r name
             (after (fw w) [session_header name] [] w) svc f e1 f' (inr e2)
             Hs Hc Hg).
  cbn [of_answer]. by rewrite after_after.
Qed.

(** X4.  The session is not there.  When [create_session] raises and
    [get_session] answers [None], a call without queries still prints
    "No queries provided." and returns; a call with queries prints the line
    of the first query and raises the AttributeError of [session.id], without
    calling the runner. *)
Theorem run_session_on_missing_session r q name (w : World F) svc f e f' :
  session_service w = Some svc →
  create_session svc (runner_app_name r) USER_ID name (fw w) = (f, inr e) →
  get_session svc (runner_app_name r) USER_ID name f = (f', inl None) →
  run_session r q name w =
  match queries_list q with
  | [] =>
      (after f' [session_header name; "No queries provided."]
         [CreateSession svc (runner_app_name r) USER_ID name (inr e);
          GetSession svc (runner_app_name r) USER_ID name (inl None)] w,
       Ret tt)
  | q1 :: _ =>
      (after f' [session_header name; nl ++ "User > " ++ q1]
         [CreateSession svc (runner_app_name r) USER_ID name (inr e);
          GetSession svc (runner_app_name r) USER_ID name (inl None)] w,
       Raise (AttributeError "'NoneType' object has no attribute 'id'"))
  end.
Proof.
  intros Hs Hc Hg. rewrite run_session_eq.
  rewrite (acquire_session_fetched r name
             (after (fw w) [session_header name] [] w) svc f e f' (inl None)
             Hs Hc Hg).
  cbn [of_answer]. rewrite after_after. cbn [app].
  destruct (queries_truthy q) eqn:Hq.
  - rewrite run_queries_truthy by done.
    destruct (queries_list q) as [|q1 qs] eqn:Hl.
    { by destruct q as [|[|c s]|[|q1 qs]]. }
    cbn [query_loop]. unfold bind, send_query, bind, get_id, raise.
    rewrite py_print_after, after_after. cbn [fw after]. by rewrite app_nil_r.
  - rewrite run_queries_none by done.
    assert (queries_list q = []) as ->
      by (by destruct q as [|[|c s]|[|q1 qs]]).
    rewrite after_after. cbn [fw after]. by rewrite app_nil_r.
Qed.

(** X12.  What [run_session] prints.  Every call, however it ends, prints
    its header first; whatever follows is the no-queries line, the line of a
    query, or a reply line carrying the model name. *)
Theorem run_session_prints_header_first r q name (w : World F) :
  ∃ lines,
    console (run_session r q name w).1
      = (console w ++ session_header name :: lines)%list
    ∧ Forall (λ line,
                line = "No queries provided."
                ∨ (∃ query, line = nl ++ "User > " ++ query)
                ∨ (∃ reply, line = "gemini-2.5-flash-lite > " ++ reply))
        lines.
Proof.
  destruct (run_session_after r q name w)
    as (f & acq & s & answers & lines & Hw & _ & Hlines & _).
  exists lines. rewrite Hw. split; [done|]. exact Hlines.
Qed.

(** ** Further facts on the module body *)

Lemma load_credentials_outcome (w : World F) :
  environ (load_credentials w).1 = load_dotenv (environ w)
  ∧ length (console (load_credentials w).1) = S (length (console w))
  ∧ fw (load_credentials w).1 = fw w
  ∧ sdk_log (load_credentials w).1 = sdk_log w
  ∧ session_service (load_credentials w).1 = session_service w
  ∧ (load_credentials w).2 =
      match load_dotenv (environ w) !! "GOOGLE_API_KEY" with
      | Some (String _ _) => Ret tt
      | _ => Exit
      end.
Proof.
  destruct (load_dotenv (environ w) !! "GOOGLE_API_KEY") as [[|c key]|] eqn:Hkey.
  - unfold load_credentials, bind, try_except, call_load_dotenv, os_getenv,
      os_environ_set, py_print, py_exit, raise.
    cbn. rewrite Hkey. cbn. rewrite length_app. cbn. repeat split; lia.
  - rewrite (load_credentials_with_key w c key Hkey).
    cbn [fst snd environ console fw sdk_log session_service].
    rewrite length_app. cbn. repeat split; try lia.
    by apply insert_id.
  - unfold load_credentials, bind, try_except, call_load_dotenv, os_getenv,
      os_environ_set, py_print, py_exit, raise.
    cbn. rewrite Hkey. cbn. rewrite length_app. cbn. repeat split; lia.
Qed.

(** X6.  The credential check and the environment.  Whatever the key, the
    loader leaves the environment exactly as [load_dotenv()] made it (writing
    the key back changes nothing), prints exactly one line, touches neither
    the SDK nor the log, and never raises: it returns when the key is
    non-empty and exits otherwise. *)
Theorem load_credentials_keeps_environment (w : World F) :
  environ (load_credentials w).1 = load_dotenv (environ w)
  ∧ length (console (load_credentials w).1) = S (length (console w))
  ∧ fw (load_credentials w).1 = fw w
  ∧ sdk_log (load_credentials w).1 = sdk_log w
  ∧ session_service (load_credentials w).1 = session_service w
  ∧ (load_credentials w).2 =
      match load_dotenv (environ w) !! "GOOGLE_API_KEY" with
      | Some (String _ _) => Ret tt
      | _ => Exit
      end.
Proof. apply load_credentials_outcome. Qed.

Lemma sends_bind qs1 qs2 (m k : M F unit) :
  sends qs1 m → sends qs2 k → sends (qs1 ++ qs2) (run m; k).
Proof.
  intros Hm Hk w. unfold bind.
  destruct (Hm w) as (new & n & Hlog & Hn & Hmsg & Hret).
  destruct (m w) as [w1 [[]|e|]]; cbn [fst snd] in Hlog, Hret.
  - destruct (Hk w1) as (new' & n' & Hlog' & Hn' & Hmsg' & Hret').
    exists (new ++ new')%list, (length qs1 + n')%nat.
    split; [by rewrite Hlog', Hlog, app_assoc|].
    split; [rewrite length_app; lia|].
    split.
    + rewrite omap_app, Hmsg, Hmsg', (Hret eq_refl).
      rewrite take_ge by lia. rewrite take_app_add' by done.
      by rewrite fmap_app.
    + intros Hr. by rewrite (Hret' Hr), length_app.
  - exists new, n. split; [done|]. split; [rewrite length_app; lia|].
    split; [|done]. rewrite Hmsg. f_equal. by rewrite take_app_le by lia.
  - exists new, n. split; [done|]. split; [rewrite length_app; lia|].
    split; [|done]. rewrite Hmsg. f_equal. by rewrite take_app_le by lia.
Qed.

Lemma demo_done_sends (w w' : World F) res banner svc built fresh r qs :
  omap sent_message built = [] →
  demo_done w w' res banner svc built fresh r qs →
  ∃ new n,
    sdk_log w' = (sdk_log w ++ new)%list
    ∧ (n ≤ length qs)%nat
    ∧ omap sent_message new = user_content <$> take n qs
    ∧ (res = Ret tt → n = length qs).
Proof.
  intros Hbuilt (f & lines & calls & n & -> & _ & _ & Hn & Hmsg & Hret).
  exists (built ++ calls)%list, n. cbn [sdk_log].
  split; [done|]. split; [done|]. split; [|done].
  by rewrite omap_app, Hbuilt.
Qed.

Lemma main_block_sends : sends all_queries main_block.
Proof.
  unfold main_block, asyncio_run.
  change all_queries
    with (greeting_queries ++ (greeting_queries ++ followup_queries) ++
          compaction_queries ++ state_queries)%list.
  apply sends_bind; [|apply sends_bind; [|apply sends_bind]]; intros w.
  - eapply demo_done_sends; [|apply in_memory_session_demo_done]. done.
  - eapply demo_done_sends; [|apply persistent_session_demo_done]. done.
  - eapply demo_done_sends; [|apply context_compaction_demo_done]. done.
  - eapply demo_done_sends; [|apply session_state_demo_done]. done.
Qed.

(** X7.  What the script can send.  For every SDK and every start, the
    messages the whole script hands to a runner are the first [n] of its
    thirteen queries, in the order of the main block and word for word: two
    greetings, the two again and two follow-ups, the four compaction
    queries, the three state queries.  All thirteen are sent when the main
    program returns; none is sent on import or without a key. *)
Theorem script_sends_fixed_queries (is_main : bool) (w : World F) :
  ∃ new n,
    sdk_log (script is_main w).1 = (sdk_log w ++ new)%list
    ∧ (n ≤ 13)%nat
    ∧ omap sent_message new
      = (λ q, mkContent (Some "user") (Some [mkPart (Some q)]))
          <$> take n all_queries
    ∧ (is_main = true → (script is_main w).2 = Ret tt → n = 13%nat)
    ∧ (is_main = false → n = 0%nat)
    ∧ (load_dotenv (environ w) !! "GOOGLE_API_KEY" = None → n = 0%nat).
Proof.
  destruct (load_credentials_outcome w)
    as (_ & _ & _ & Hlog & _ & Hres).
  unfold script, bind.
  destruct (load_credentials w) as [w0 res] eqn:Hload.
  cbn [fst snd] in Hlog, Hres.
  destruct (load_dotenv (environ w) !! "GOOGLE_API_KEY") as [[|c key]|] eqn:Hkey;
    subst res.
  - exists [], 0%nat. rewrite app_nil_r. repeat split; try done. lia.
  - cbn [construct]. destruct is_main.
    + destruct (main_block_sends (add_log (Construct (OHttpRetryOptions retry_config)) w0))
        as (new & n & Hnew & Hn & Hmsg & Hret).
      exists (Construct (OHttpRetryOptions retry_config) :: new), n.
      rewrite Hnew. cbn [add_log sdk_log]. rewrite Hlog, <- app_assoc.
      assert (length all_queries = 13%nat) as Hlen by reflexivity.
      rewrite Hlen in Hn, Hret.
      split; [done|]. split; [exact Hn|]. split; [exact Hmsg|].
      split; [intros _ Hr; exact (Hret Hr)|]. done.
    + exists [Construct (OHttpRetryOptions retry_config)], 0%nat.
      cbn [ret fst snd add_log sdk_log]. rewrite Hlog.
      repeat split; try done. lia.
  - exists [], 0%nat. rewrite app_nil_r. repeat split; try done. lia.
Qed.

(** ** Demos over a session store *)

Section StoreDemos.

Context {store : SessionStore (F := F)}.

(** A call on a non-empty list that returned, over a session store: the
    session has the name asked for and exists afterwards; when it existed
    before, it was fetched, not created. *)
Lemma run_session_returned_store r qs name (w w' : World F) svc :
  qs ≠ [] →
  session_service w = Some svc →
  run_session r (QList qs) name w = (w', Ret tt) →
  ∃ f acq s answers,
    w' = after f (session_header name :: concat (zip_with shown qs answers))
           (acq ++ zip_with (sent r s) qs answers) w
    ∧ obtains svc (runner_app_name r) name s acq
    ∧ length answers = length qs
    ∧ Forall (λ a, a.2 = None) answers
    ∧ session_id s = name
    ∧ has_session (fw w') svc (runner_app_name r) USER_ID name
    ∧ (has_session (fw w) svc (runner_app_name r) USER_ID name →
       ∃ e, acq = refetch svc (runner_app_name r) name e s).
Proof.
  intros Hqs Hs Hrun.
  destruct (run_session_list_returned r qs name w w' svc Hqs Hs Hrun)
    as (wa & s & f & acq & answers & Hacq & (f0 & Hwa) & Hw' & Hfw & Hobt &
        Hlen & Hall).
  destruct (acquire_session_has r name
              (after (fw w) [session_header name] [] w) wa svc s Hs Hacq)
    as (Hhas & Hid & _).
  exists f, acq, s, answers.
  split; [done|]. split; [done|]. split; [done|]. split; [done|].
  split; [done|]. split.
  - rewrite Hfw. by apply query_loop_keeps.
  - intros Hbefore.
    destruct (acquire_session_existing r name
                (after (fw w) [session_header name] [] w) svc Hs Hbefore)
      as (f1 & e & f1' & s2 & Hc & Hg & _).
    rewrite (acquire_session_fetched r name
               (after (fw w) [session_header name] [] w) svc f1 e f1'
               (inl (Some s2)) Hs Hc Hg) in Hacq.
    cbn [of_answer] in Hacq. injection Hacq as Hwa' <-.
    exists e. rewrite Hwa, after_after in Hwa'.
    apply (f_equal sdk_log) in Hwa'. cbn [after sdk_log] in Hwa'.
    by apply app_inv_head in Hwa'.
Qed.

(** The same for a call on one non-empty string. *)
Lemma run_session_one_returned r q name (w w' : World F) svc :
  q ≠ EmptyString →
  session_service w = Some svc →
  run_session r (QStr q) name w = (w', Ret tt) →
  ∃ f acq s events lines,
    w' = after f lines (acq ++ [asked r s q events]) w
    ∧ obtains svc (runner_app_name r) name s acq
    ∧ session_id s = name
    ∧ has_session (fw w') svc (runner_app_name r) USER_ID name
    ∧ (has_session (fw w) svc (runner_app_name r) USER_ID name →
       ∃ e, acq = refetch svc (runner_app_name r) name e s).
Proof.
  intros Hq Hs Hrun. rewrite run_session_str_eq in Hrun by done.
  destruct (run_session_returned_store r [q] name w w' svc) as
    (f & acq & s & answers & Hw' & Hobt & Hlen & Hall & Hid & Hhas & Hre);
    [done..|].
  destruct answers as [|[events fin] [|]]; try done.
  apply Forall_cons in Hall as [Hfin _]. cbn in Hfin. subst fin.
  by eexists f, acq, s, events, _.
Qed.

(** X9.  The compaction demo lives on the fallback.  Over a session store,
    when the demo returns, its four calls of [run_session] went to the one
    session compaction_demo of the database service: the first call obtained
    it, and each of the three others raised on creation, fetched the session
    and sent its single query to it. *)
Theorem context_compaction_demo_refetches (w w' : World F) :
  context_compaction_demo w = (w', Ret tt) →
  ∃ acq s1 e2 s2 e3 s3 e4 s4 ev1 ev2 ev3 ev4,
    sdk_log w' =
      (sdk_log w ++ compaction_built ++ acq ++
       [asked compaction_runner s1
          "What is the latest news about AI in healthcare?" ev1] ++
       refetch db_service (runner_app_name compaction_runner)
         "compaction_demo" e2 s2 ++
       [asked compaction_runner s2
          "Are there any new developments in drug discovery?" ev2] ++
       refetch db_service (runner_app_name compaction_runner)
         "compaction_demo" e3 s3 ++
       [asked compaction_runner s3 "Tell me more about drug discovery." ev3] ++
       refetch db_service (runner_app_name compaction_runner)
         "compaction_demo" e4 s4 ++
       [asked compaction_runner s4
          "Who are the main companies in this field?" ev4])%list
    ∧ obtains db_service (runner_app_name compaction_runner)
        "compaction_demo" s1 acq
    ∧ session_id s1 = "compaction_demo"
    ∧ session_id s2 = "compaction_demo"
    ∧ session_id s3 = "compaction_demo"
    ∧ session_id s4 = "compaction_demo".
Proof.
  rewrite context_compaction_demo_eq. unfold bind.
  destruct (run_session compaction_runner
              (QStr "What is the latest news about AI in healthcare?")
              "compaction_demo"
              (prepared compaction_banner db_service compaction_built 0 w))
    as [w1 [[]|?|]] eqn:R1; [|done..].
  destruct (run_session compaction_runner
              (QStr "Are there any new developments in drug discovery?")
              "compaction_demo" w1)
    as [w2 [[]|?|]] eqn:R2; [|done..].
  destruct (run_session compaction_runner
              (QStr "Tell me more about drug discovery.") "compaction_demo" w2)
    as [w3 [[]|?|]] eqn:R3; [|done..].
  intros R4.
  apply run_session_one_returned with (svc := db_service) in R1
    as (f1 & acq & s1 & ev1 & l1 & Hw1 & Hobt & Hid1 & Hhas1 & _); [|done..].
  assert (session_service w1 = Some db_service) as Hs1 by by rewrite Hw1.
  apply run_session_one_returned with (svc := db_service) in R2
    as (f2 & acq2 & s2 & ev2 & l2 & Hw2 & _ & Hid2 & Hhas2 & Hre2); [|done..].
  destruct (Hre2 Hhas1) as [e2 ->].
  assert (session_service w2 = Some db_service) as Hs2 by by rewrite Hw2.
  apply run_session_one_returned with (svc := db_service) in R3
    as (f3 & acq3 & s3 & ev3 & l3 & Hw3 & _ & Hid3 & Hhas3 & Hre3); [|done..].
  destruct (Hre3 Hhas2) as [e3 ->].
  assert (session_service w3 = Some db_service) as Hs3 by by rewrite Hw3.
  apply run_session_one_returned with (svc := db_service) in R4
    as (f4 & acq4 & s4 & ev4 & l4 & Hw4 & _ & Hid4 & _ & Hre4); [|done..].
  destruct (Hre4 Hhas3) as [e4 ->].
  exists acq, s1, e2, s2, e3, s3, e4, s4, ev1, ev2, ev3, ev4.
  split; [|done].
  rewrite Hw4, Hw3, Hw2, Hw1. unfold prepared. cbn [after sdk_log].
  by rewrite <- !app_assoc.
Qed.

(** X10.  A second run over the same database.  Over a session store, when
    session test-db-session-01 is already in the database, the persistent
    demo that returns has never created it: both of its calls raised on
    creation and fetched the stored session, and the four queries went to
    it. *)
Theorem persistent_demo_on_existing_session (w w' : World F) :
  has_session (fw w) db_service (runner_app_name persistent_runner) USER_ID
    "test-db-session-01" →
  persistent_session_demo w = (w', Ret tt) →
  ∃ e1 s1 e2 s2 ev1 ev2 ev3 ev4,
    sdk_log w' =
      (sdk_log w ++ persistent_built ++
       refetch db_service (runner_app_name persistent_runner)
         "test-db-session-01" e1 s1 ++
       [ asked persistent_runner s1
           "Hi, I am Sam! What is the capital of the United States?" ev1;
         asked persistent_runner s1 "Hello! What is my name?" ev2 ] ++
       refetch db_service (runner_app_name persistent_runner)
         "test-db-session-01" e2 s2 ++
       [ asked persistent_runner s2 "What is the capital of India?" ev3;
         asked persistent_runner s2 "What is my name?" ev4 ])%list
    ∧ session_id s1 = "test-db-session-01"
    ∧ session_id s2 = "test-db-session-01".
Proof.
  intros Hhas. rewrite persistent_session_demo_eq. unfold bind.
  destruct (run_session persistent_runner (QList greeting_queries)
              "test-db-session-01"
              (prepared persistent_banner db_service persistent_built 0 w))
    as [w1 [[]|?|]] eqn:R1; [|done..].
  intros R2.
  apply run_session_returned_store with (svc := db_service) in R1
    as (f1 & acq1 & s1 & answers1 & Hw1 & _ & Hlen1 & Hall1 & Hid1 & Hhas1 & Hre1);
    [|done..].
  destruct (Hre1 Hhas) as [e1 ->].
  assert (session_service w1 = Some db_service) as Hs1 by by rewrite Hw1.
  apply run_session_returned_store with (svc := db_service) in R2
    as (f2 & acq2 & s2 & answers2 & Hw2 & _ & Hlen2 & Hall2 & Hid2 & _ & Hre2);
    [|done..].
  destruct (Hre2 Hhas1) as [e2 ->].
  apply two_answers in Hlen1 as ([ev1 fin1] & [ev2 fin2] & ->).
  apply two_answers in Hlen2 as ([ev3 fin3] & [ev4 fin4] & ->).
  apply Forall_cons in Hall1 as [E1 Hall1]. apply Forall_cons in Hall1 as [E2 _].
  apply Forall_cons in Hall2 as [E3 Hall2]. apply Forall_cons in Hall2 as [E4 _].
  cbn in E1, E2, E3, E4. subst fin1 fin2 fin3 fin4.
  exists e1, s1, e2, s2, ev1, ev2, ev3, ev4.
  split; [|done].
  rewrite Hw2, Hw1. unfold prepared. cbn. by rewrite <- !app_assoc.
Qed.

End StoreDemos.

End Facts.

(** ** The script on the reference SDK *)

Example handle_events_suppresses :
  console
    (handle_events
       [ mkEvent None;
         mkEvent (Some (mkContent (Some "model") None));
         mkEvent (Some (mkContent (Some "model") (Some [])));
         mkEvent (Some (mkContent (Some "model") (Some [mkPart None])));
         mkEvent (Some (mkContent (Some "model") (Some [mkPart (Some EmptyString)])));
         mkEvent (Some (mkContent (Some "model") (Some [mkPart (Some "None")])));
         mkEvent (Some (mkContent (Some "model")
                          (Some [mkPart (Some "Washington"); mkPart (Some "x")]))) ]
       db_world).1
  = ["gemini-2.5-flash-lite > Washington"].
Proof. reflexivity. Qed.

Example run_session_twice_on_echo :
  sdk_log
    ((run run_session persistent_runner (QStr "one") "s";
      run_session persistent_runner (QList ["two"]) "s") db_world).1
  = [ CreateSession db_service "default" "default" "s" (inl (mkSession "s"));
      RunAsync persistent_runner "default" "s" (user_content "one")
        [ mkEvent None;
          mkEvent (Some (mkContent (Some "model") (Some [mkPart (Some "one")]))) ]
        None;
      CreateSession db_service "default" "default" "s"
        (inr (Exn "AlreadyExistsError" "Session already exists: s"));
      GetSession db_service "default" "default" "s" (inl (Some (mkSession "s")));
      RunAsync persistent_runner "default" "s" (user_content "two")
        [ mkEvent None;
          mkEvent (Some (mkContent (Some "model") (Some [mkPart (Some "two")]))) ]
        None ].
Proof. reflexivity. Qed.

Example run_session_console_on_echo :
  console (run_session persistent_runner (QList ["one"; "two"]) "s" db_world).1
  = [ nl ++ " ### Session: s";
      nl ++ "User > one"; "gemini-2.5-flash-lite > one";
      nl ++ "User > two"; "gemini-2.5-flash-lite > two" ].
Proof. reflexivity. Qed.

Example run_session_unset_global :
  run_session persistent_runner (QList ["one"]) "s" fresh_world
  = (after [] [nl ++ " ### Session: s"] [] fresh_world,
     Raise (NameError "session_service")).
Proof. reflexivity. Qed.

Example script_without_key :
  (script true (mkWorld ([] : Store) ∅ [] None [] 0)).2 = Exit.
Proof. reflexivity. Qed.

Example script_on_echo_returns :
  (script true fresh_world).2 = Ret tt
  ∧ banners_on (console (script true fresh_world).1) = banners
  ∧ length (sdk_log (script true fresh_world).1) = 44%nat.
Proof. vm_compute. done. Qed.

(** ** The claims at concrete inputs *)

Lemma run_session_sends_queries_witness :
  let wa := (acquire_session persistent_runner "s"
               (after (fw db_world) [session_header "s"] [] db_world)).1 in
  let answers :=
    (streamed persistent_runner (mkSession "s") ["one"; "two"] (fw wa)).1 in
  run_session persistent_runner (QList ["one"; "two"]) "s" db_world =
    (after (streamed persistent_runner (mkSession "s") ["one"; "two"] (fw wa)).2
       (concat (zip_with
          (λ q a, (nl ++ "User > " ++ q) :: reply_lines a.1)
          ["one"; "two"] answers))
       (zip_with
          (λ q a, RunAsync persistent_runner USER_ID
                    (session_id (mkSession "s"))
                    (mkContent (Some "user") (Some [mkPart (Some q)]))
                    a.1 a.2) ["one"; "two"] answers)
       wa,
     stream_outcome answers)
  ∧ head answers
    = (λ q, (run_async persistent_runner USER_ID (session_id (mkSession "s"))
               (mkContent (Some "user") (Some [mkPart (Some q)])) (fw wa)).2)
        <$> head ["one"; "two"]
  ∧ loop_result ["one"; "two"] answers (stream_outcome answers).
Proof.
  apply (run_session_sends_queries persistent_runner ["one"; "two"] "s"
           db_world _ (mkSession "s")).
  - discriminate.
  - reflexivity.
Defined.



Lemma run_session_no_queries_witness :
  run_session persistent_runner QNone "s" db_world
  = (after [(db_service, "default", "default", "s")]
       [session_header "s"; "No queries provided."]
       [CreateSession db_service "default" "default" "s" (inl (mkSession "s"))]
       db_world,
     Ret tt).
Proof.
  pose proof (run_session_no_queries persistent_runner "s" db_world QNone)
    as Hnone.
  destruct Hnone as (_ & Hprints & _).
  - apply list_elem_of_here.
  - rewrite (Hprints _ (Some (mkSession "s")) eq_refl). reflexivity.
Defined.

Lemma script_runs_demos_in_order_witness :
  ∃ w0,
    script false fresh_world = (w0, Ret tt)
    ∧ in_order [in_memory_session_demo; persistent_session_demo;
                context_compaction_demo; session_state_demo]
        w0 (script true fresh_world).1 (script true fresh_world).2
    ∧ ∃ k, (1 ≤ k ≤ 4)%nat
        ∧ banners_on (console (script true fresh_world).1)
          = (banners_on (console fresh_world) ++ take k banners)%list
        ∧ ((script true fresh_world).2 = Ret tt → k = 4%nat).
Proof.
  exact (script_runs_demos_in_order fresh_world (Ascii.ascii_of_nat 115)
           "ecret" eq_refl).
Defined.

Lemma persistent_demo_reuses_session_witness :
  ∃ acq1 s1 acq2 s2 ev1 ev2 ev3 ev4,
    sdk_log (persistent_session_demo db_world).1 =
      (sdk_log db_world ++
       [ Construct (OGemini gemini_model); Construct (OAgent persistent_agent);
         Construct (OSessionService
                      (DatabaseSessionService "sqlite:///my_agent_data.db"));
         Construct (ORunner persistent_runner) ] ++
       acq1 ++
       [ RunAsync persistent_runner USER_ID (session_id s1)
           (user_content "Hi, I am Sam! What is the capital of the United States?")
           ev1 None;
         RunAsync persistent_runner USER_ID (session_id s1)
           (user_content "Hello! What is my name?") ev2 None ] ++
       acq2 ++
       [ RunAsync persistent_runner USER_ID (session_id s2)
           (user_content "What is the capital of India?") ev3 None;
         RunAsync persistent_runner USER_ID (session_id s2)
           (user_content "What is my name?") ev4 None ])%list
    ∧ obtains (runner_session_service persistent_runner)
        (runner_app_name persistent_runner) "test-db-session-01" s1 acq1
    ∧ obtains (runner_session_service persistent_runner)
        (runner_app_name persistent_runner) "test-db-session-01" s2 acq2
    ∧ (∀ store : SessionStore (F := Store),
         session_id s1 = "test-db-session-01"
         ∧ session_id s2 = "test-db-session-01"
         ∧ ∃ e, acq2 =
             [ CreateSession db_service (runner_app_name persistent_runner)
                 USER_ID "test-db-session-01" (inr e);
               GetSession db_service (runner_app_name persistent_runner)
                 USER_ID "test-db-session-01" (inl (Some s2)) ]).
Proof.
  apply (persistent_demo_reuses_session db_world
           (persistent_session_demo db_world).1).
  vm_compute. reflexivity.
Defined.

(** ** Further facts at concrete inputs *)

Lemma run_session_needs_global_witness :
  run_session persistent_runner (QList ["one"]) "s" fresh_world =
  (after (fw fresh_world) [session_header "s"] [] fresh_world,
   Raise (NameError "session_service")).
Proof.
  exact (run_session_needs_global persistent_runner (QList ["one"]) "s"
           fresh_world eq_refl).
Defined.

Lemma run_session_creates_in_global_service_witness :
  ∃ answer rest,
    sdk_log (run_session (in_memory_runner (InMemorySessionService 7)) QNone "s"
               db_world).1 =
      (sdk_log db_world ++
       CreateSession db_service
         (runner_app_name (in_memory_runner (InMemorySessionService 7)))
         USER_ID "s" answer :: rest)%list
    ∧ Forall (λ c, is_session_call c = true →
                ∃ fetched,
                  c = GetSession db_service
                        (runner_app_name
                           (in_memory_runner (InMemorySessionService 7)))
                        USER_ID "s" fetched)
        rest.
Proof.
  exact (run_session_creates_in_global_service
           (in_memory_runner (InMemorySessionService 7)) QNone "s" db_world
           db_service eq_refl).
Defined.

Lemma run_session_raises_fetch_error_witness :
  run_session (sdk := down_sdk) persistent_runner (QList ["one"]) "s" unit_world =
  (after tt [session_header "s"]
     [ CreateSession db_service "default" USER_ID "s"
         (inr (Exn "OperationalError" "database is locked"));
       GetSession db_service "default" USER_ID "s"
         (inr (Exn "OperationalError" "unable to open database file")) ]
     unit_world,
   Raise (Exn "OperationalError" "unable to open database file")).
Proof.
  exact (run_session_raises_fetch_error (sdk := down_sdk) persistent_runner
           (QList ["one"]) "s" unit_world db_service tt
           (Exn "OperationalError" "database is locked") tt
           (Exn "OperationalError" "unable to open database file")
           eq_refl eq_refl eq_refl).
Defined.

Lemma run_session_on_missing_session_witness :
  run_session (sdk := forgetful_sdk) persistent_runner (QList ["one"; "two"])
    "s" unit_world =
  (after tt [session_header "s"; nl ++ "User > " ++ "one"]
     [ CreateSession db_service "default" USER_ID "s"
         (inr (Exn "ValueError" "invalid session id"));
       GetSession db_service "default" USER_ID "s" (inl None) ]
     unit_world,
   Raise (AttributeError "'NoneType' object has no attribute 'id'")).
Proof.
  exact (run_session_on_missing_session (sdk := forgetful_sdk)
           persistent_runner (QList ["one"; "two"]) "s" unit_world db_service
           tt (Exn "ValueError" "invalid session id") tt
           eq_refl eq_refl eq_refl).
Defined.

Lemma context_compaction_demo_refetches_witness :
  ∃ acq s1 e2 s2 e3 s3 e4 s4 ev1 ev2 ev3 ev4,
    sdk_log (context_compaction_demo db_world).1 =
      (sdk_log db_world ++ compaction_built ++ acq ++
       [asked compaction_runner s1
          "What is the latest news about AI in healthcare?" ev1] ++
       refetch db_service (runner_app_name compaction_runner)
         "compaction_demo" e2 s2 ++
       [asked compaction_runner s2
          "Are there any new developments in drug discovery?" ev2] ++
       refetch db_service (runner_app_name compaction_runner)
         "compaction_demo" e3 s3 ++
       [asked compaction_runner s3 "Tell me more about drug discovery." ev3] ++
       refetch db_service (runner_app_name compaction_runner)
         "compaction_demo" e4 s4 ++
       [asked compaction_runner s4
          "Who are the main companies in this field?" ev4])%list
    ∧ obtains db_service (runner_app_name compaction_runner)
        "compaction_demo" s1 acq
    ∧ session_id s1 = "compaction_demo"
    ∧ session_id s2 = "compaction_demo"
    ∧ session_id s3 = "compaction_demo"
    ∧ session_id s4 = "compaction_demo".
Proof.
  apply (context_compaction_demo_refetches (store := echo_store) db_world
           (context_compaction_demo db_world).1).
  vm_compute. reflexivity.
Defined.

Lemma persistent_demo_on_existing_session_witness :
  ∃ e1 s1 e2 s2 ev1 ev2 ev3 ev4,
    sdk_log (persistent_session_demo rerun_world).1 =
      (sdk_log rerun_world ++ persistent_built ++
       refetch db_service (runner_app_name persistent_runner)
         "test-db-session-01" e1 s1 ++
       [ asked persistent_runner s1
           "Hi, I am Sam! What is the capital of the United States?" ev1;
         asked persistent_runner s1 "Hello! What is my name?" ev2 ] ++
       refetch db_service (runner_app_name persistent_runner)
         "test-db-session-01" e2 s2 ++
       [ asked persistent_runner s2 "What is the capital of India?" ev3;
         asked persistent_runner s2 "What is my name?" ev4 ])%list
    ∧ session_id s1 = "test-db-session-01"
    ∧ session_id s2 = "test-db-session-01".
Proof.
  apply (persistent_demo_on_existing_session (store := echo_store) rerun_world
           (persistent_session_demo rerun_world).1).
  - vm_compute. apply list_elem_of_here.
  - vm_compute. reflexivity.
Defined.

(** ** The state tools *)

(** C10.  [save_userinfo] writes the two keys user:name and user:country and
    nothing else, and returns the success dictionary; [retrieve_userinfo] on
    the state it leaves returns the two values saved; on any state, a field
    whose key is absent reads Unknown. *)
Theorem save_then_retrieve_userinfo (tool_context : ToolContext)
    (user_name country : string) :
  let saved := (save_userinfo tool_context user_name country).1 in
  state saved !! "user:name" = Some (VStr user_name)
  ∧ state saved !! "user:country" = Some (VStr country)
  ∧ (∀ key, key ≠ "user:name" → key ≠ "user:country" →
       state saved !! key = state tool_context !! key)
  ∧ (save_userinfo tool_context user_name country).2
      = {[ "status" := VStr "success" ]}
  ∧ retrieve_userinfo saved
      = <["country" := VStr country]> {[ "user_name" := VStr user_name ]}
  ∧ (state tool_context !! "user:name" = None →
       retrieve_userinfo tool_context !! "user_name" = Some (VStr "Unknown"))
  ∧ (state tool_context !! "user:country" = None →
       retrieve_userinfo tool_context !! "country" = Some (VStr "Unknown")).
Proof.
  cbv zeta. unfold save_userinfo, retrieve_userinfo, state_get, state_set.
  cbn [fst snd state].
  repeat split.
  - by simplify_map_eq.
  - by simplify_map_eq.
  - intros key Hn Hc. by simplify_map_eq.
  - by simplify_map_eq.
  - intros Hnone. rewrite Hnone. by simplify_map_eq.
  - intros Hnone. rewrite Hnone. by simplify_map_eq.
Qed.

(** X11.  The last save wins.  Saving twice leaves exactly the state, and
    gives exactly the result, of the second save alone: no trace of the
    first pair remains, and saving the same pair again changes nothing. *)
Theorem save_userinfo_last_write_wins (tool_context : ToolContext)
    (name1 country1 name2 country2 : string) :
  save_userinfo (save_userinfo tool_context name1 country1).1 name2 country2
  = save_userinfo tool_context name2 country2.
Proof.
  unfold save_userinfo, state_set. cbn [fst state].
  f_equal. f_equal. apply map_eq. intros key.
  destruct (decide (key = "user:country")) as [->|Hc]; [by simplify_map_eq|].
  destruct (decide (key = "user:name")) as [->|Hn]; by simplify_map_eq.
Qed.
